(** * grammy-fsm: session storage, facade and lifecycle middleware

    A shallow embedding of the TypeScript sources
    ([storage/memory.ts], [storage/redis.ts], [context.ts] in its two
    versions, [plugin.ts]) together with the properties the specification
    states about them.

    Conventions.
    - A JavaScript [Map] or plain object used as a dictionary is a [gmap];
      enumeration order is not observable in any statement below.
    - Objects are values, but for the one object that is shared within an
      invocation of the middleware: the object the in-memory backend's
      [getData] returns is the one it stores, the session of the invocation
      refers to it, and the handlers may write it in place.  The middleware is
      modelled with that reference ([ByReference]); the statements about a
      backend or a facade on its own speak of a mapping as it is when the
      operation returns.  Handlers reach the backend through the object their
      own invocation was handed, not through one kept from an earlier
      invocation.
    - [async] methods are run to completion one after the other: a method is a
      function from the state it touches to a completion and the new state.
    - A thrown exception is the [Throw] completion.
    - TypeScript types are erased at run time.  Where the source lets a value
      of any shape through ([JSON.parse] in the external backend, and from
      there the middleware), the model lets it through as well. *)

From Stdlib Require Import QArith Qcanon Ascii String.
From stdpp Require Import base option list gmap strings pretty.

Local Open Scope string_scope.
Local Open Scope list_scope.
Local Open Scope Z_scope.

(** ** Completions: a call either returns normally or throws. *)

Inductive exn : Type :=
  | Error (message : string)
  | TypeError (message : string)
  | SyntaxError (message : string).

Inductive completion (A : Type) : Type :=
  | Normal (a : A)
  | Throw (e : exn).
Arguments Normal {A} a.
Arguments Throw {A} e.

Definition throws {A} (c : completion A) : bool :=
  match c with Normal _ => false | Throw _ => true end.

Definition try_catch {A} (body : completion A) (handler : exn -> A) : A :=
  match body with Normal a => a | Throw e => handler e end.

(** A method with effects on a state [S]: the state survives a throw. *)
Definition eff (S A : Type) : Type := S -> completion A * S.

Definition ret {S A} (a : A) : eff S A := fun s => (Normal a, s).

Definition lift {S A} (c : completion A) : eff S A := fun s => (c, s).

Definition bind {S A B} (m : eff S A) (k : A -> eff S B) : eff S B :=
  fun s =>
    match m s with
    | (Normal a, s') => k a s'
    | (Throw e, s') => (Throw e, s')
    end.

Declare Scope eff_scope.
Delimit Scope eff_scope with eff.
Notation "'let*' x := m 'in' k" := (bind m (fun x => k))
  (at level 10, x pattern, m at level 100, k at level 200) : eff_scope.
Notation "m ;;; k" := (bind m (fun _ => k))
  (at level 100, k at level 200, right associativity) : eff_scope.

(** ** JavaScript values *)

Module JS.

(** A [number]: a finite value (kept as an exact canonical rational, of
    which the doubles are a subset; there is one zero), or one of the three
    non-finite values. *)
Inductive number : Type :=
  | Finite (q : Qc)
  | NaN
  | PosInfinity
  | NegInfinity.

Definition int (z : Z) : number := Finite (Q2Qc (inject_Z z)).

#[global] Instance number_eq_dec : EqDecision number.
Proof. solve_decision. Defined.

#[global] Instance number_countable : Countable number :=
  inj_countable'
    (fun n => match n with
              | Finite q => inl q
              | NaN => inr 0%nat
              | PosInfinity => inr 1%nat
              | NegInfinity => inr 2%nat
              end)
    (fun x => match x with
              | inl q => Finite q
              | inr 0%nat => NaN
              | inr 1%nat => PosInfinity
              | inr _ => NegInfinity
              end)
    (fun n => match n with
              | Finite _ | NaN | PosInfinity | NegInfinity => eq_refl
              end).

(** [Number.isInteger(n)] *)
Definition isInteger (n : number) : bool :=
  match n with
  | Finite q => Pos.eqb (Qden q) 1
  | _ => false
  end.

(** [n <= 0] *)
Definition le0 (n : number) : bool :=
  match n with
  | Finite q => Z.leb (Qnum q) 0
  | NegInfinity => true
  | NaN | PosInfinity => false
  end.

(** A positive integer: what a user key has to be. *)
Definition positive_integer (n : number) : bool :=
  isInteger n && negb (le0 n).

(** ToBoolean on a number: only [0] and [NaN] are falsy. *)
Definition number_truthy (n : number) : bool :=
  match n with
  | Finite q => negb (Z.eqb (Qnum q) 0)
  | NaN => false
  | PosInfinity | NegInfinity => true
  end.

(** The values that flow through the data mapping ([any]). *)
#[warnings="-register-all"]
Inductive value : Type :=
  | Undefined
  | Null
  | Bool (b : bool)
  | Num (n : number)
  | Str (s : string)
  | Arr (elements : list value)
  | Obj (properties : gmap string value).

(** ToBoolean *)
Definition truthy (v : value) : bool :=
  match v with
  | Undefined | Null => false
  | Bool b => b
  | Num n => number_truthy n
  | Str s => negb (String.eqb s EmptyString)
  | Arr _ | Obj _ => true
  end.

(** The characters of a string, as one-character strings. *)
Fixpoint chars (s : string) : list string :=
  match s with
  | EmptyString => []
  | String c s' => String c EmptyString :: chars s'
  end.

(** Index-keyed properties of an array-like: ["0"], ["1"], ... *)
Definition indexed {A} (l : list A) : list (string * A) :=
  imap (fun i x => (pretty i, x)) l.

(** The own enumerable string-keyed properties of a value once converted
    to an object: what [Object.keys] lists and what object spread copies. *)
Definition own_properties (v : value) : list (string * value) :=
  match v with
  | Undefined | Null | Bool _ | Num _ => []
  | Str s => indexed (Str <$> chars s)
  | Arr l => indexed l
  | Obj m => map_to_list m
  end.

(** [Object.keys(v)]: throws on [undefined] and [null]. *)
Definition Object_keys (v : value) : completion (list string) :=
  match v with
  | Undefined | Null =>
      Throw (TypeError "Cannot convert undefined or null to object")
  | _ => Normal ((own_properties v).*1)
  end.

(** [{ ...a, ...b }]: the properties of [a], overridden and extended by
    those of [b]. *)
Definition spread2 (a b : value) : gmap string value :=
  (list_to_map (own_properties b) : gmap string value)
    ∪ list_to_map (own_properties a).

End JS.

Import JS.

(** [Record<string, any>] *)
Abbreviation RecordAny := (gmap string value).

(** [Object.keys(o)] on a plain object. *)
Definition keys (o : RecordAny) : list string := (map_to_list o).*1.

(** ** storage/memory.ts *)

Module MemoryStorage.

(** [interface StorageData] *)
Record StorageData : Type := mkStorageData {
  state : option string;
  data : RecordAny;
}.

(** The private [storage = new Map<number, StorageData>()]. *)
Abbreviation t := (gmap number StorageData).

Definition new : t := ∅.

(** [this.storage.get(userId) ?? { state: null, data: {} }] *)
Definition current (userId : number) (storage : t) : StorageData :=
  default (mkStorageData None ∅) (storage !! userId).

Definition setState (userId : number) (s : string) (storage : t) : t :=
  let cur := current userId storage in
  <[userId := mkStorageData (Some s) (data cur)]> storage.

Definition getState (userId : number) (storage : t) : option string :=
  storage !! userId ≫= state.

Definition setData (userId : number) (d : RecordAny) (storage : t) : t :=
  let cur := current userId storage in
  <[userId := mkStorageData (state cur) d]> storage.

Definition getData (userId : number) (storage : t) : option RecordAny :=
  match data <$> storage !! userId with
  | Some d => if (0 <? length (keys d))%nat then Some d else None
  | None => None
  end.

Definition updateData (userId : number) (d : RecordAny) (storage : t) : t :=
  let cur := current userId storage in
  <[userId := mkStorageData (state cur) (spread2 (Obj (data cur)) (Obj d))]>
    storage.

Definition clear (userId : number) (storage : t) : t :=
  delete userId storage.

Definition getUserIds (storage : t) : list number := (map_to_list storage).*1.

Definition clearAll (storage : t) : t := ∅.

(** The mapping held for a key, if a record exists. *)
Definition stored (userId : number) (storage : t) : option RecordAny :=
  data <$> storage !! userId.

(** Not a method.  [getData] returns [this.storage.get(userId)?.data], the
    object the record holds and not a copy of it: once the caller has written
    that object in place, so that it holds [d], the record holds [d]. *)
Definition written_in_place (userId : number) (d : RecordAny) (storage : t)
  : t :=
  alter (fun record => mkStorageData (state record) d) userId storage.

End MemoryStorage.

(** ** The runtime services [storage/redis.ts] relies on *)

(** [Number.prototype.toString] (also the conversion in a template literal),
    [JSON.stringify] and [JSON.parse] are taken from the host: every statement
    below holds for whatever they compute. *)
Class Runtime : Type := {
  Number_toString : number -> string;
  JSON_stringify : value -> string;
  JSON_parse : string -> completion value;
  (* the one fact about the host that is relied on: no text, no value *)
  JSON_parse_empty : throws (JSON_parse EmptyString) = true;
}.

(** ** [interface RedisClient]: a reference key-value client

    The client keeps, per key, a payload and the expiry it was last written
    with, and records every command it is sent.  Commands succeed; the passing
    of time is outside the model. *)

Module Redis.

Inductive command : Type :=
  | GET (key : string)
  | SET (key : string) (payload : string)
  | SETEX (key : string) (seconds : number) (payload : string)
  | DEL (keys : list string).

Record entry : Type := mkEntry {
  payload : string;
  expiry : option number;
}.

Record client : Type := mkClient {
  entries : gmap string entry;
  issued : list command;
}.

Definition connect : client := mkClient ∅ [].

Definition get (key : string) : eff client (option string) :=
  fun c => (Normal (payload <$> entries c !! key),
            mkClient (entries c) (issued c ++ [GET key])).

Definition set (key : string) (v : string) : eff client unit :=
  fun c => (Normal tt,
            mkClient (<[key := mkEntry v None]> (entries c))
                     (issued c ++ [SET key v])).

Definition setex (key : string) (seconds : number) (v : string)
  : eff client unit :=
  fun c => (Normal tt,
            mkClient (<[key := mkEntry v (Some seconds)]> (entries c))
                     (issued c ++ [SETEX key seconds v])).

Definition del (keys : list string) : eff client unit :=
  fun c => (Normal tt,
            mkClient (foldr delete (entries c) keys)
                     (issued c ++ [DEL keys])).

End Redis.

(** ** storage/redis.ts *)

Module RedisStorage.
Section RedisStorage.

Context `{Runtime}.

Record t : Type := mkRedisStorage {
  keyPrefix : string;
  ttl : option number;
}.

(** [constructor(redis, options = {})] *)
Definition new (options_keyPrefix : option string)
    (options_ttl : option number) : t :=
  mkRedisStorage (default "fsm:" options_keyPrefix) options_ttl.

Definition sanitizeUserId (userId : number) : completion string :=
  if negb (isInteger userId) || le0 userId
  then Throw (Error ("Invalid userId: " +:+ Number_toString userId))
  else Normal (Number_toString userId).

Definition getStateKey (this : t) (userId : number) : completion string :=
  match sanitizeUserId userId with
  | Normal id => Normal (keyPrefix this +:+ id +:+ ":state")
  | Throw e => Throw e
  end.

Definition getDataKey (this : t) (userId : number) : completion string :=
  match sanitizeUserId userId with
  | Normal id => Normal (keyPrefix this +:+ id +:+ ":data")
  | Throw e => Throw e
  end.

(** [if (this.ttl) setex(key, this.ttl, v) else set(key, v)] *)
Definition write (this : t) (key v : string) : eff Redis.client unit :=
  match ttl this with
  | Some seconds =>
      if number_truthy seconds then Redis.setex key seconds v
      else Redis.set key v
  | None => Redis.set key v
  end.

Definition setState (this : t) (userId : number) (state : string)
  : eff Redis.client unit :=
  (let* key := lift (getStateKey this userId) in
   write this key state)%eff.

Definition getState (this : t) (userId : number)
  : eff Redis.client (option string) :=
  (let* key := lift (getStateKey this userId) in
   Redis.get key)%eff.

Definition setData (this : t) (userId : number) (data : value)
  : eff Redis.client unit :=
  (let* key := lift (getDataKey this userId) in
   let serialized := JSON_stringify data in
   write this key serialized)%eff.

(** The [try] block of [getData].  (The [catch] block also writes to the
    console, which is not modelled.) *)
Definition decode (data : string) : completion (option value) :=
  match JSON_parse data with
  | Normal parsed =>
      match Object_keys parsed with
      | Normal ks =>
          Normal (if (0 <? length ks)%nat then Some parsed else None)
      | Throw e => Throw e
      end
  | Throw e => Throw e
  end.

Definition getData (this : t) (userId : number)
  : eff Redis.client (option value) :=
  (let* key := lift (getDataKey this userId) in
   let* data := Redis.get key in
   match data with
   | None | Some EmptyString => ret None
   | Some blob => ret (try_catch (decode blob) (fun error => None))
   end)%eff.

Definition updateData (this : t) (userId : number) (data : value)
  : eff Redis.client unit :=
  (let* fetched := getData this userId in
   let current := default (Obj ∅) fetched in
   let updated := Obj (spread2 current data) in
   setData this userId updated)%eff.

Definition clear (this : t) (userId : number) : eff Redis.client unit :=
  (let* stateKey := lift (getStateKey this userId) in
   let* dataKey := lift (getDataKey this userId) in
   Redis.del [stateKey; dataKey])%eff.

(** The text the client holds under the data sub-key of a user. *)
Definition text (this : t) (userId : number) (c : Redis.client)
  : option string :=
  match getDataKey this userId with
  | Normal key => Redis.payload <$> Redis.entries c !! key
  | Throw _ => None
  end.

(** What [getData] makes of a text: nothing when it is empty, else the
    outcome of the [try] block, with a throw turned into nothing. *)
Definition reading (text : option string) : option value :=
  match text with
  | None | Some EmptyString => None
  | Some blob => try_catch (decode blob) (fun _ => None)
  end.

(** A text decodes to a mapping when parsing it yields an object. *)
Definition decodes_to_mapping (blob : string) : Prop :=
  exists m : RecordAny, JSON_parse blob = Normal (Obj m).

(** The mapping stored for a user: the text under the data sub-key, when it
    decodes to a mapping. *)
Definition stored (this : t) (userId : number) (c : Redis.client)
  : option RecordAny :=
  match text this userId c with
  | Some blob =>
      match JSON_parse blob with
      | Normal (Obj m) => Some m
      | _ => None
      end
  | None => None
  end.

End RedisStorage.
End RedisStorage.

(** ** types.ts *)

(** [interface FSMSessionData].  The type of [data] is a parameter because
    the middleware passes on whatever the backend's [getData] returned. *)
Record FSMSessionData (D : Type) : Type := mkSession {
  state : option string;
  data : D;
}.
Arguments mkSession {D} state data.
Arguments state {D} _.
Arguments data {D} _.

(** A transition callback [(oldState, newState) => void], as its effect on
    the world [W] outside the session.  [None] stands for [undefined]. *)
Definition callback (W : Type) : Type := option string -> option string -> W -> W.

(** The callback that records each of its invocations. *)
Definition recorder : callback (list (option string * option string)) :=
  fun oldState newState w => (w ++ [(oldState, newState)])%list.

(** What is asked of a state mutation from [oldState] to [newState] that takes
    the world from [w] to [w']: the callback ran once, on that pair, when the
    two differ, and did not run when they are the same. *)
Definition fires_once_on_change {W} (cb : callback W)
    (oldState newState : option string) (w w' : W) : Prop :=
  (oldState ≠ newState → w' = cb oldState newState w)
  ∧ (oldState = newState → w' = w).

(** [interface FSMStorage] *)
Module FSMStorage.

Record t (S D : Type) : Type := mk {
  setState : number -> string -> eff S unit;
  getState : number -> eff S (option string);
  setData : number -> D -> eff S unit;
  getData : number -> eff S (option D);
  updateData : number -> D -> eff S unit;
  clear : number -> eff S unit;
  (* not a method of the interface: what an implementation shares with its
     caller.  [written_in_place userId d st] is the backend [st] once the
     object that [getData(userId)] returned has been written in place by the
     caller and holds [d]. *)
  written_in_place : number -> D -> S -> S;
}.
Arguments mk {S D}.
Arguments setState {S D}.
Arguments getState {S D}.
Arguments setData {S D}.
Arguments getData {S D}.
Arguments updateData {S D}.
Arguments clear {S D}.
Arguments written_in_place {S D}.

(** [new MemoryStorage()] behind the interface: no method rejects.  The
    object [getData] returns is the stored one. *)
Definition memory : t MemoryStorage.t RecordAny := {|
  setState userId s := fun st => (Normal tt, MemoryStorage.setState userId s st);
  getState userId := fun st => (Normal (MemoryStorage.getState userId st), st);
  setData userId d := fun st => (Normal tt, MemoryStorage.setData userId d st);
  getData userId := fun st => (Normal (MemoryStorage.getData userId st), st);
  updateData userId d :=
    fun st => (Normal tt, MemoryStorage.updateData userId d st);
  clear userId := fun st => (Normal tt, MemoryStorage.clear userId st);
  written_in_place := MemoryStorage.written_in_place;
|}.

(** [new RedisStorage(client, options)] behind the interface.  The object
    [getData] returns is the fresh result of [JSON.parse]: writing it leaves
    the client as it is. *)
Definition redis `{Runtime} (this : RedisStorage.t) : t Redis.client value := {|
  setState := RedisStorage.setState this;
  getState := RedisStorage.getState this;
  setData := RedisStorage.setData this;
  getData := RedisStorage.getData this;
  updateData := RedisStorage.updateData this;
  clear := RedisStorage.clear this;
  written_in_place := fun _ _ c => c;
|}.

End FSMStorage.

(** ** context.ts: the session facade *)

(** The session a facade is bound to, and the world its callback acts on. *)
Definition session (W : Type) : Type := FSMSessionData RecordAny * W.

(** [createStateNamespace(sessionData, onStateChange)].  No operation reads
    or writes [sessionData.data]: they are given for any type [D] of it. *)
Module StateNamespace.
Section StateNamespace.

Context {D W : Type} (onStateChange : option (callback W)).

Definition set (s : string) : FSMSessionData D * W -> FSMSessionData D * W :=
  fun '(sessionData, w) =>
    let oldState := state sessionData in
    let sessionData := mkSession (Some s) (data sessionData) in
    match onStateChange with
    | Some cb =>
        if bool_decide (oldState ≠ Some s)
        then (sessionData, cb oldState (Some s) w)
        else (sessionData, w)
    | None => (sessionData, w)
    end.

Definition get : FSMSessionData D * W -> option string :=
  fun '(sessionData, _) => state sessionData.

Definition has : FSMSessionData D * W -> bool :=
  fun '(sessionData, _) => bool_decide (state sessionData ≠ None).

Definition clear : FSMSessionData D * W -> FSMSessionData D * W :=
  fun '(sessionData, w) =>
    let oldState := state sessionData in
    let sessionData := mkSession None (data sessionData) in
    match onStateChange with
    | Some cb =>
        if bool_decide (oldState ≠ None)
        then (sessionData, cb oldState None w)
        else (sessionData, w)
    | None => (sessionData, w)
    end.

Definition toString : FSMSessionData D * W -> string :=
  fun '(sessionData, _) => default EmptyString (state sessionData).

Definition valueOf : FSMSessionData D * W -> option string :=
  fun '(sessionData, _) => state sessionData.

End StateNamespace.
End StateNamespace.

(** ** Property access on the objects of the facade *)

(** The string-keyed properties every plain object inherits from
    [Object.prototype]. *)
Definition Object_prototype_names : list string :=
  [ "constructor"; "hasOwnProperty"; "isPrototypeOf"; "propertyIsEnumerable";
    "toLocaleString"; "toString"; "valueOf"; "__proto__";
    "__defineGetter__"; "__defineSetter__"; "__lookupGetter__";
    "__lookupSetter__" ].

(** What reading a property yields. *)
Inductive property : Type :=
  | Method (name : string)     (* a method of the namespace object *)
  | Builtin (name : string)    (* inherited from [Object.prototype] *)
  | Field (v : value).         (* a data field; [Undefined] when absent *)

(** [o[key]] on a plain object. *)
Definition read (key : string) (o : RecordAny) : property :=
  match o !! key with
  | Some v => Field v
  | None =>
      if bool_decide (key ∈ Object_prototype_names) then Builtin key
      else Field Undefined
  end.

(** [o[key] = v] on a plain object.  ["__proto__"] names the inherited
    accessor, not an own property: the own properties stay as they are (the
    prototype chain of a data object is not part of the model). *)
Definition put (key : string) (v : value) (o : RecordAny) : RecordAny :=
  if String.eqb key "__proto__" then o else <[key := v]> o.

(** An assignment expression [o.p = v] completes according to the outcome of
    the object's [[Set]] (ECMA-262, PutValue): a [[Set]] that reports failure
    is ignored by non-strict code and is a [TypeError] in strict mode code
    (every ES module and class body is strict mode code). *)
Definition PutValue (strict succeeded : bool) : completion unit :=
  if succeeded then Normal tt
  else if strict then Throw (TypeError "trap returned falsish for property")
  else Normal tt.

(** [createDataNamespace(sessionData)] *)
Module DataNamespace.

Abbreviation sessionData := (FSMSessionData RecordAny).

Definition set (key : string) (v : value) (sd : sessionData) : sessionData :=
  mkSession (state sd) (put key v (data sd)).

Definition get (key : string) (sd : sessionData) : property :=
  read key (data sd).

Definition setAll (d : RecordAny) (sd : sessionData) : sessionData :=
  mkSession (state sd) d.

Definition getAll (sd : sessionData) : RecordAny := data sd.

Definition update (d : RecordAny) (sd : sessionData) : sessionData :=
  mkSession (state sd) (spread2 (Obj (data sd)) (Obj d)).

Definition delete (key : string) (sd : sessionData) : sessionData :=
  mkSession (state sd) (base.delete key (data sd)).

Definition clear (sd : sessionData) : sessionData :=
  mkSession (state sd) ∅.

Definition toJSON (sd : sessionData) : RecordAny := data sd.

(** The string-keyed own properties of the [namespace] object. *)
Definition method_names : list string :=
  [ "set"; "get"; "setAll"; "getAll"; "update"; "delete"; "clear"; "toJSON" ].

(** [prop in target] *)
Definition in_target (prop : string) : bool :=
  bool_decide (prop ∈ method_names) || bool_decide (prop ∈ Object_prototype_names).

(** [target[prop]], for [prop in target] *)
Definition target_get (prop : string) : property :=
  if bool_decide (prop ∈ method_names) then Method prop else Builtin prop.

(** The traps of the [Proxy] around [namespace]. *)
Module Proxy.

Definition get (prop : string) (sd : sessionData) : property :=
  if in_target prop then target_get prop
  else read prop (data sd).

Definition set (prop : string) (v : value) (sd : sessionData)
  : bool * sessionData :=
  if in_target prop then (false, sd)
  else (true, mkSession (state sd) (put prop v (data sd))).

Definition has (prop : string) (sd : sessionData) : bool :=
  in_target prop || bool_decide (is_Some (data sd !! prop)).

Definition deleteProperty (prop : string) (sd : sessionData)
  : bool * sessionData :=
  if in_target prop then (false, sd)
  else (true, mkSession (state sd) (base.delete prop (data sd))).

Definition ownKeys (sd : sessionData) : list string := keys (data sd).

End Proxy.

(** [ctx.data.prop = v], written in strict or non-strict code. *)
Definition assign (strict : bool) (prop : string) (v : value)
    (sd : sessionData) : completion unit * sessionData :=
  let '(succeeded, sd') := Proxy.set prop v sd in
  (PutValue strict succeeded, sd').

End DataNamespace.

(** [createFSMContext] and [addFSMToContext] *)
Module Context.
Section Context.

Context {W : Type} (onStateChange : option (callback W)).

(** [fsm.clear()] *)
Definition fsm_clear : session W -> session W :=
  fun '(sessionData, w) =>
    let oldState := state sessionData in
    let sessionData := mkSession None (∅ : RecordAny) in
    match onStateChange with
    | Some cb =>
        if bool_decide (oldState ≠ None)
        then (sessionData, cb oldState None w)
        else (sessionData, w)
    | None => (sessionData, w)
    end.

(** The setter of the accessor property [ctx.state]. *)
Definition state_setter (v : value) : session W -> session W :=
  match v with
  | Undefined | Null => StateNamespace.clear onStateChange
  | Str s => StateNamespace.set onStateChange s
  | _ => fun sw => sw
  end.

(** The setter of the accessor property [ctx.data]. *)
Definition data_setter (v : value) : session W -> session W :=
  match v with
  | Undefined | Null => fun '(sd, w) => (DataNamespace.clear sd, w)
  | _ => fun sw => sw
  end.

(** [ctx.state = v]: [[Set]] on an accessor property calls the setter and
    reports success. *)
Definition assign_state (strict : bool) (v : value)
  : session W -> completion unit * session W :=
  fun sw => (PutValue strict true, state_setter v sw).

(** [ctx.data = v] *)
Definition assign_data (strict : bool) (v : value)
  : session W -> completion unit * session W :=
  fun sw => (PutValue strict true, data_setter v sw).

End Context.
End Context.

(** The earlier, flat facade: [createFSMContext] with every operation on
    [ctx.fsm] itself. *)
Module FlatContext.
Section FlatContext.

Context {W : Type} (onStateChange : option (callback W)).

(** [set state(value: string | null)] *)
Definition set_state (v : option string) : session W -> session W :=
  fun '(sessionData, w) =>
    let oldState := state sessionData in
    let sessionData := mkSession v (data sessionData) in
    match onStateChange with
    | Some cb =>
        if bool_decide (oldState ≠ v)
        then (sessionData, cb oldState v w)
        else (sessionData, w)
    | None => (sessionData, w)
    end.

Definition setState (s : string) : session W -> session W :=
  fun '(sessionData, w) =>
    let oldState := state sessionData in
    let sessionData := mkSession (Some s) (data sessionData) in
    match onStateChange with
    | Some cb =>
        if bool_decide (oldState ≠ Some s)
        then (sessionData, cb oldState (Some s) w)
        else (sessionData, w)
    | None => (sessionData, w)
    end.

Definition getState : session W -> option string :=
  fun '(sessionData, _) => state sessionData.

Definition hasState : session W -> bool :=
  fun '(sessionData, _) => bool_decide (state sessionData ≠ None).

Definition setData (d : RecordAny) : session W -> session W :=
  fun '(sessionData, w) => (mkSession (state sessionData) d, w).

Definition getData : session W -> RecordAny :=
  fun '(sessionData, _) => data sessionData.

Definition updateData (d : RecordAny) : session W -> session W :=
  fun '(sessionData, w) =>
    (mkSession (state sessionData) (spread2 (Obj (data sessionData)) (Obj d)), w).

Definition get (key : string) : session W -> property :=
  fun '(sessionData, _) => read key (data sessionData).

Definition set (key : string) (v : value) : session W -> session W :=
  fun '(sessionData, w) =>
    (mkSession (state sessionData) (put key v (data sessionData)), w).

Definition delete (key : string) : session W -> session W :=
  fun '(sessionData, w) =>
    (mkSession (state sessionData) (base.delete key (data sessionData)), w).

Definition clear : session W -> session W :=
  fun '(sessionData, w) =>
    let oldState := state sessionData in
    let sessionData := mkSession None (∅ : RecordAny) in
    match onStateChange with
    | Some cb =>
        if bool_decide (oldState ≠ None)
        then (sessionData, cb oldState None w)
        else (sessionData, w)
    | None => (sessionData, w)
    end.

End FlatContext.
End FlatContext.

(** ** [sessionData.data] as a reference

    [sessionData.data] designates an object.  When the handlers start it
    designates the object the LOAD step of the middleware put there: the one
    the backend's [getData] returned or, failing that, the fresh [{}] of
    [data || {}].  An operation of the facade either writes the designated
    object in place ([sessionData.data[key] = value],
    [delete sessionData.data[key]]) or makes [sessionData.data] designate
    another object ([sessionData.data = ...]), and the object the LOAD step
    produced may be shared with the backend.  So the contents of that object
    are kept apart from the reference the session holds.  Every other object
    is the handlers' own and is given by its contents. *)

Module ByReference.

Inductive reference (D : Type) : Type :=
  | Loaded                 (* the object the LOAD step produced *)
  | Other (contents : D).  (* another object *)
Arguments Loaded {D}.
Arguments Other {D} contents.

Record t (D : Type) : Type := mk {
  sessionData : FSMSessionData (reference D);
  loaded : D;   (* what the object the LOAD step produced holds *)
}.
Arguments mk {D} sessionData loaded.
Arguments sessionData {D} _.
Arguments loaded {D} _.

Section Objects.

Context {D : Type}.

(** The contents of the object a reference designates. *)
Definition deref (r : reference D) (b : t D) : D :=
  match r with
  | Loaded => loaded b
  | Other contents => contents
  end.

(** The contents of [sessionData.data]. *)
Definition contents (b : t D) : D := deref (data (sessionData b)) b.

(** The session with its data by value: what [storage.setData] is passed, and
    what the facade of the previous sections acts on. *)
Definition view (b : t D) : FSMSessionData D :=
  mkSession (state (sessionData b)) (contents b).

(** The object [sessionData.data] designates is written in place. *)
Definition write (f : D -> D) (b : t D) : t D :=
  match data (sessionData b) with
  | Loaded => mk (sessionData b) (f (loaded b))
  | Other contents =>
      mk (mkSession (state (sessionData b)) (Other (f contents))) (loaded b)
  end.

(** [sessionData.data = r]: no object is written. *)
Definition point (r : reference D) (b : t D) : t D :=
  mk (mkSession (state (sessionData b)) r) (loaded b).

(** An operation on [sessionData] that involves no data object: those of the
    state namespace. *)
Definition on_session {W}
    (f : FSMSessionData (reference D) * W -> FSMSessionData (reference D) * W)
  : t D * W -> t D * W :=
  fun '(b, w) =>
    let '(sessionData', w') := f (sessionData b, w) in
    (mk sessionData' (loaded b), w').

End Objects.

(** [createDataNamespace(sessionData)], with the references. *)
Module DataNamespace.

Definition set (key : string) (v : value) : t RecordAny -> t RecordAny :=
  write (put key v).

Definition get (key : string) (b : t RecordAny) : property :=
  read key (contents b).

(** [setAll(data)] is passed an object: the loaded one, which the handlers
    have from [getAll()], or another. *)
Definition setAll (d : reference RecordAny) : t RecordAny -> t RecordAny :=
  point d.

Definition getAll (b : t RecordAny) : reference RecordAny :=
  data (sessionData b).

(** The spread makes a new object. *)
Definition update (d : RecordAny) (b : t RecordAny) : t RecordAny :=
  point (Other (spread2 (Obj (contents b)) (Obj d))) b.

Definition delete (key : string) : t RecordAny -> t RecordAny :=
  write (base.delete key).

Definition clear : t RecordAny -> t RecordAny :=
  point (Other ∅).

(** The two traps of the [Proxy] that write. *)
Module Proxy.

Definition set (prop : string) (v : value) (b : t RecordAny)
  : bool * t RecordAny :=
  if DataNamespace.in_target prop then (false, b)
  else (true, write (put prop v) b).

Definition deleteProperty (prop : string) (b : t RecordAny)
  : bool * t RecordAny :=
  if DataNamespace.in_target prop then (false, b)
  else (true, write (base.delete prop) b).

End Proxy.

End DataNamespace.

(** [fsm.clear()] of [createFSMContext], with the references. *)
Definition fsm_clear {W} (onStateChange : option (callback W))
  : t RecordAny * W -> t RecordAny * W :=
  fun '(b, w) =>
    let oldState := state (sessionData b) in
    let b := mk (mkSession None (Other ∅)) (loaded b) in
    match onStateChange with
    | Some cb =>
        if bool_decide (oldState ≠ None)
        then (b, cb oldState None w)
        else (b, w)
    | None => (b, w)
    end.

End ByReference.

(** ** plugin.ts: the lifecycle middleware *)

(** What the middleware needs of the type of [data] to evaluate
    [data || {}]. *)
Class DataType (D : Type) : Type := {
  ToBoolean : D -> bool;
  empty_object : D;
}.

#[global] Instance RecordAny_DataType : DataType RecordAny :=
  {| ToBoolean := fun _ => true; empty_object := ∅ |}.

#[global] Instance value_DataType : DataType value :=
  {| ToBoolean := truthy; empty_object := Obj ∅ |}.

Module Plugin.
Section Plugin.

Context {S D W : Type} `{DataType D}.

(** A call on the storage backend, as the middleware issues it. *)
Inductive call : Type :=
  | GetState (userId : number)
  | GetData (userId : number)
  | SetState (userId : number) (s : string)
  | SetData (userId : number) (d : D)
  | Clear (userId : number).

(** Everything an invocation can affect: the backend, the calls it has
    received, and the world the callback and the handlers act on. *)
Record world : Type := mkWorld {
  backend : S;
  calls : list call;
  outside : W;
}.

(** [await storage.m(...)]: the call is recorded, then performed. *)
Definition await {A} (c : call) (m : eff S A) : eff world A :=
  fun w =>
    let '(r, st) := m (backend w) in
    (r, mkWorld st (calls w ++ [c]) (outside w)).

(** [next: NextFunction], the downstream handlers.  Without a facade on the
    context they act on the outside world only; with one, they also act on the
    session through the facade, whose state operations use the per-user
    callback they are given: on [sessionData] and on the object the LOAD step
    put into [sessionData.data]. *)
Record NextFunction : Type := mkNext {
  plain : W -> completion unit * W;
  with_fsm : option (callback W) -> ByReference.t D * W
             -> completion unit * (ByReference.t D * W);
}.

Definition next_plain (next : NextFunction) : eff world unit :=
  fun w =>
    let '(r, o) := plain next (outside w) in
    (r, mkWorld (backend w) (calls w) o).

(** [data || {}] *)
Definition or_empty (data : option D) : D :=
  match data with
  | Some d => if ToBoolean d then d else empty_object
  | None => empty_object
  end.

(** [sessionData = { state: state, data: data || {} }] *)
Definition load (state : option string) (data : option D) : ByReference.t D :=
  ByReference.mk (mkSession state ByReference.Loaded) (or_empty data).

(** Whether [data || {}] is [data], the object [getData] returned. *)
Definition handed_out (data : option D) : bool :=
  match data with
  | Some d => ToBoolean d
  | None => false
  end.

(** The backend once the object of [data || {}] holds [contents]: when that
    object is the one [getData] returned, the backend has what was written to
    it in place. *)
Definition in_place (storage : FSMStorage.t S D) (userId : number)
    (data : option D) (contents : D) (st : S) : S :=
  if handed_out data
  then FSMStorage.written_in_place storage userId contents st
  else st.

(** [addFSMToContext(ctx, sessionData, onStateChange); await next()]:
    returns [sessionData] as the handlers left it, whether they return or
    throw.  No method of the backend is called meanwhile. *)
Definition next_with_fsm (storage : FSMStorage.t S D) (userId : number)
    (data : option D) (next : NextFunction)
    (onStateChange : option (callback W)) (sessionData : ByReference.t D)
  : eff world (ByReference.t D) :=
  fun w =>
    let '(r, (sessionData', o)) :=
      with_fsm next onStateChange (sessionData, outside w) in
    (match r with Normal _ => Normal sessionData' | Throw e => Throw e end,
     mkWorld (in_place storage userId data (ByReference.loaded sessionData')
                (backend w))
             (calls w) o).

(** The SAVE step; [sessionData.data] is passed as it is. *)
Definition save (storage : FSMStorage.t S D) (userId : number)
    (loaded : option string) (sessionData : FSMSessionData D)
  : eff world unit :=
  match state sessionData with
  | Some s =>
      (await (SetState userId s) (FSMStorage.setState storage userId s) ;;;
       await (SetData userId (data sessionData))
             (FSMStorage.setData storage userId (data sessionData)))%eff
  | None =>
      match loaded with
      | Some _ => await (Clear userId) (FSMStorage.clear storage userId)
      | None => ret tt
      end
  end.

(** [!userId], for [userId = ctx.from?.id] *)
Definition no_user (from_id : option number) : bool :=
  match from_id with
  | Some userId => negb (number_truthy userId)
  | None => true
  end.

(** The middleware [createFSM(options)] returns, given the storage that
    [initializeStorage(options)] selected; [from_id] is [ctx.from?.id]. *)
Definition createFSM (storage : FSMStorage.t S D)
    (globalOnStateChange : option (number -> callback W))
    (from_id : option number) (next : NextFunction) : eff world unit :=
  match from_id with
  | None => next_plain next
  | Some userId =>
      if no_user from_id then next_plain next
      else
        (let* state := await (GetState userId)
                             (FSMStorage.getState storage userId) in
         let* data := await (GetData userId)
                            (FSMStorage.getData storage userId) in
         let sessionData := load state data in
         let onStateChange :=
           (fun g => g userId) <$> globalOnStateChange in
         let* sessionData :=
           next_with_fsm storage userId data next onStateChange sessionData in
         save storage userId state (ByReference.view sessionData))%eff
  end.

End Plugin.
End Plugin.

Arguments Plugin.call : clear implicits.
Arguments Plugin.world : clear implicits.
Arguments Plugin.NextFunction : clear implicits.

(** No field of the session carries a name that the proxy answers from the
    namespace object itself. *)
Definition unshadowed (sd : FSMSessionData RecordAny) : Prop :=
  ∀ k, is_Some (data sd !! k) → DataNamespace.in_target k = false.

(** ** middleware.ts: the state filters *)

(** A filter is given the context.  All it uses of it is [ctx.state]: the
    state namespace of the session when a facade is attached (an object, so
    truthy), [undefined] when none is. *)
Module Middleware.
Section Middleware.

Context {W : Type}.

Definition not_initialized : exn :=
  Error "FSM plugin not initialized. Did you forget to use createFSM()?".

Definition state (stateName : string) (ctx : option (session W))
  : completion bool :=
  match ctx with
  | None => Throw not_initialized
  | Some facade =>
      Normal (bool_decide (StateNamespace.get facade = Some stateName))
  end.

Definition states (stateNames : list string) (ctx : option (session W))
  : completion bool :=
  match ctx with
  | None => Throw not_initialized
  | Some facade =>
      let currentState := StateNamespace.get facade in
      Normal (match currentState with
              | Some current => bool_decide (current ∈ stateNames)
              | None => false
              end)
  end.

Definition inAnyState (ctx : option (session W)) : completion bool :=
  match ctx with
  | None => Throw not_initialized
  | Some facade => Normal (StateNamespace.has facade)
  end.

Definition noState (ctx : option (session W)) : completion bool :=
  match ctx with
  | None => Throw not_initialized
  | Some facade => Normal (negb (StateNamespace.has facade))
  end.

End Middleware.
End Middleware.

(** ** plugin.ts: the choice of the backend *)

Module Options.
Section Options.

(** [C]: the caller's own storage objects. *)
Context {C : Type}.

(** [options.storage]: a string, or an object. *)
Inductive storage_choice : Type :=
  | Named (name : string)
  | Instance (custom : C).

(** [options.redis]; an absent [client] is [None]. *)
Record redis_options : Type := mkRedisOptions {
  client : option Redis.client;
  keyPrefix : option string;
}.

(** [interface FSMOptions], without the callback. *)
Record FSMOptions : Type := mkOptions {
  storage : storage_choice;
  redis : option redis_options;
  ttl : option number;
}.

(** The storage object [initializeStorage] returns. *)
Inductive selected : Type :=
  | Custom (custom : C)
  | InMemory (store : MemoryStorage.t)
  | OnRedis (connection : Redis.client) (this : RedisStorage.t).

Definition client_required : exn :=
  Error ("Redis client is required when using storage: "
         +:+ String (ascii_of_nat 34) ("redis" +:+ String (ascii_of_nat 34)
               ". Provide options.redis.client")).

Definition initializeStorage (options : FSMOptions) : completion selected :=
  match storage options with
  | Instance custom => Normal (Custom custom)
  | Named name =>
      if String.eqb name "memory" then Normal (InMemory MemoryStorage.new)
      else if String.eqb name "redis" then
        match redis options ≫= client with
        | Some connection =>
            Normal (OnRedis connection
                      (RedisStorage.new (redis options ≫= keyPrefix)
                                        (ttl options)))
        | None => Throw client_required
        end
      else Throw (Error ("Unknown storage type: " +:+ name))
  end.

End Options.
End Options.

Arguments Options.storage_choice : clear implicits.
Arguments Options.FSMOptions : clear implicits.
Arguments Options.selected : clear implicits.

(** ** The two sub-keys of a user on the external backend *)

Module RedisKeys.
Section RedisKeys.

Context `{Runtime}.

Definition stateKey (this : RedisStorage.t) (userId : number) : string :=
  RedisStorage.keyPrefix this +:+ Number_toString userId +:+ ":state".

Definition dataKey (this : RedisStorage.t) (userId : number) : string :=
  RedisStorage.keyPrefix this +:+ Number_toString userId +:+ ":data".

(** The one command a write of [v] under [key] sends: with expiry when a
    truthy time-to-live is configured. *)
Definition written (this : RedisStorage.t) (key v : string) : Redis.command :=
  match RedisStorage.ttl this with
  | Some seconds =>
      if number_truthy seconds then Redis.SETEX key seconds v
      else Redis.SET key v
  | None => Redis.SET key v
  end.

End RedisKeys.
End RedisKeys.

(** ** A reference runtime

    An executable instance of [Runtime], used to evaluate the definitions on
    concrete inputs.  It covers JSON text over ASCII with the full number
    grammar; numbers are exact rationals (no rounding to doubles, no exponent
    notation when printing, at most twenty fractional digits) and a [\u]
    escape above U+007F is rejected.  Inside that fragment it is meant to
    agree with the host. *)

Module ReferenceRuntime.

Definition digit_value (c : ascii) : option Z :=
  let n := Z.of_nat (nat_of_ascii c) in
  if (48 <=? n) && (n <=? 57) then Some (n - 48) else None.

Definition hex_value (c : ascii) : option Z :=
  let n := Z.of_nat (nat_of_ascii c) in
  if (48 <=? n) && (n <=? 57) then Some (n - 48)
  else if (65 <=? n) && (n <=? 70) then Some (n - 55)
  else if (97 <=? n) && (n <=? 102) then Some (n - 87)
  else None.

Definition is_ws (c : ascii) : bool :=
  let n := nat_of_ascii c in
  (n =? 32)%nat || (n =? 9)%nat || (n =? 10)%nat || (n =? 13)%nat.

Fixpoint skip_ws (s : string) : string :=
  match s with
  | String c s' => if is_ws c then skip_ws s' else s
  | EmptyString => s
  end.

(** Fractional digits of [r / d] by long division. *)
Fixpoint fraction_digits (fuel : nat) (r d : Z) : string :=
  match fuel with
  | O => EmptyString
  | Datatypes.S fuel =>
      if r =? 0 then EmptyString
      else pretty (r * 10 / d) +:+ fraction_digits fuel (r * 10 mod d) d
  end.

Definition toString (n : number) : string :=
  match n with
  | NaN => "NaN"
  | PosInfinity => "Infinity"
  | NegInfinity => "-Infinity"
  | Finite q =>
      let num := Qnum q in
      let den := Z.pos (Qden q) in
      let whole := Z.abs num / den in
      let r := Z.abs num mod den in
      (if num <? 0 then "-" else EmptyString) +:+ pretty whole +:+
      (if r =? 0 then EmptyString else "." +:+ fraction_digits 20 r den)
  end.

(** *** Printing *)

Definition quote_char : ascii := ascii_of_nat 34.

Definition hex_digit (n : nat) : ascii :=
  if (n <? 10)%nat then ascii_of_nat (48 + n) else ascii_of_nat (87 + n).

Definition escape_char (c : ascii) : string :=
  let n := nat_of_ascii c in
  if (n =? 34)%nat then String "\"%char (String quote_char EmptyString)
  else if (n =? 92)%nat then "\\"
  else if (n =? 10)%nat then "\n"
  else if (n =? 13)%nat then "\r"
  else if (n =? 9)%nat then "\t"
  else if (n =? 8)%nat then "\b"
  else if (n =? 12)%nat then "\f"
  else if (n <? 32)%nat then
    "\u00" +:+ String (hex_digit (n / 16)) (String (hex_digit (n mod 16)) EmptyString)
  else String c EmptyString.

Fixpoint escape (s : string) : string :=
  match s with
  | EmptyString => EmptyString
  | String c s' => escape_char c +:+ escape s'
  end.

Definition quote (s : string) : string :=
  String quote_char (escape s +:+ String quote_char EmptyString).

Fixpoint join (sep : string) (l : list string) : string :=
  match l with
  | [] => EmptyString
  | [x] => x
  | x :: l' => x +:+ sep +:+ join sep l'
  end.

Definition print_number (n : number) : string :=
  match n with
  | Finite _ => toString n
  | _ => "null"
  end.

(** [None] is the result [undefined]. *)
Fixpoint serialize (v : value) : option string :=
  match v with
  | Undefined => None
  | Null => Some "null"
  | Bool b => Some (if b then "true" else "false")
  | Num n => Some (print_number n)
  | Str s => Some (quote s)
  | Arr l =>
      Some ("[" +:+ join "," ((fun x => default "null" (serialize x)) <$> l)
                +:+ "]")
  | Obj m =>
      let printed : gmap string (option string) := serialize <$> m in
      Some ("{" +:+
            join "," (omap (fun '(k, p) => (fun s => quote k +:+ ":" +:+ s) <$> p)
                           (map_to_list printed))
            +:+ "}")
  end.

Definition stringify (v : value) : string := default "undefined" (serialize v).

(** *** Parsing *)

Definition is_char (c : ascii) (code : nat) : bool := (nat_of_ascii c =? code)%nat.

Fixpoint strip_prefix (p s : string) : option string :=
  match p, s with
  | EmptyString, _ => Some s
  | String a p', String b s' =>
      if Ascii.eqb a b then strip_prefix p' s' else None
  | String _ _, EmptyString => None
  end.

(** Reads a run of digits onto [acc]; also returns how many were read. *)
Fixpoint parse_digits (s : string) (acc : Z) (count : nat) : Z * nat * string :=
  match s with
  | String c s' =>
      match digit_value c with
      | Some d => parse_digits s' (acc * 10 + d) (Datatypes.S count)
      | None => (acc, count, s)
      end
  | EmptyString => (acc, count, s)
  end.

Definition parse_sign (s : string) : bool * string :=
  match s with
  | String c s' => if is_char c 45 then (true, s') else (false, s)
  | EmptyString => (false, s)
  end.

(** [-? int frac? exp?] *)
Definition parse_number (s : string) : option (number * string) :=
  let '(negative, s) := parse_sign s in
  '(whole, s) ← match s with
                | String c s' =>
                    d ← digit_value c;
                    if d =? 0 then Some (0, s')
                    else let '(w, _, r) := parse_digits s' d 1 in Some (w, r)
                | EmptyString => None
                end;
  '(frac, places, s) ← match s with
                        | String c s' =>
                            if is_char c 46 then
                              let '(f, n, r) := parse_digits s' 0 0 in
                              if (n =? 0)%nat then None else Some (f, n, r)
                            else Some (0, 0%nat, s)
                        | EmptyString => Some (0, 0%nat, s)
                        end;
  '(exponent, s) ← match s with
                    | String c s' =>
                        if is_char c 101 || is_char c 69 then
                          let '(neg, s') :=
                            match s' with
                            | String c' s'' =>
                                if is_char c' 45 then (true, s'')
                                else if is_char c' 43 then (false, s'')
                                else (false, s')
                            | EmptyString => (false, s')
                            end in
                          let '(e, n, r) := parse_digits s' 0 0 in
                          if (n =? 0)%nat then None
                          else Some (if neg then - e else e, r)
                        else Some (0, s)
                    | EmptyString => Some (0, s)
                    end;
  let mantissa := whole * 10 ^ Z.of_nat places + frac in
  let scale := exponent - Z.of_nat places in
  let q := if 0 <=? scale then Qmake (mantissa * 10 ^ scale) 1
           else Qmake mantissa (Z.to_pos (10 ^ (- scale))) in
  Some (Finite (Q2Qc (if negative then Qopp q else q)), s).

Definition unescape (c : ascii) : option ascii :=
  let n := nat_of_ascii c in
  if (n =? 34)%nat || (n =? 92)%nat || (n =? 47)%nat then Some c
  else if (n =? 98)%nat then Some (ascii_of_nat 8)
  else if (n =? 102)%nat then Some (ascii_of_nat 12)
  else if (n =? 110)%nat then Some (ascii_of_nat 10)
  else if (n =? 114)%nat then Some (ascii_of_nat 13)
  else if (n =? 116)%nat then Some (ascii_of_nat 9)
  else None.

(** The characters of a string literal after its opening quote, and what
    follows the closing quote. *)
Fixpoint parse_chars (s : string) : option (string * string) :=
  match s with
  | EmptyString => None
  | String c s' =>
      if is_char c 34 then Some (EmptyString, s')
      else if is_char c 92 then
        match s' with
        | String e s'' =>
            if is_char e 117 then
              match s'' with
              | String h1 (String h2 (String h3 (String h4 r))) =>
                  a ← hex_value h1; b ← hex_value h2;
                  c ← hex_value h3; d ← hex_value h4;
                  let code := ((a * 16 + b) * 16 + c) * 16 + d in
                  if code <? 128 then
                    '(str, rest) ← parse_chars r;
                    Some (String (ascii_of_nat (Z.to_nat code)) str, rest)
                  else None
              | _ => None
              end
            else
              ch ← unescape e;
              '(str, rest) ← parse_chars s'';
              Some (String ch str, rest)
        | EmptyString => None
        end
      else if (nat_of_ascii c <? 32)%nat then None
      else
        '(str, rest) ← parse_chars s';
        Some (String c str, rest)
  end.

Definition object_of (members : list (string * value)) : RecordAny :=
  foldl (fun m '(k, v) => <[k := v]> m) ∅ members.

Fixpoint parse_value (fuel : nat) (s : string) {struct fuel}
  : option (value * string) :=
  match fuel with
  | O => None
  | Datatypes.S fuel =>
      match skip_ws s with
      | EmptyString => None
      | String c rest as s =>
          if is_char c 110 then r ← strip_prefix "null" s; Some (Null, r)
          else if is_char c 116 then r ← strip_prefix "true" s; Some (Bool true, r)
          else if is_char c 102 then r ← strip_prefix "false" s; Some (Bool false, r)
          else if is_char c 34 then
            '(str, r) ← parse_chars rest; Some (Str str, r)
          else if is_char c 91 then
            match skip_ws rest with
            | String c' r =>
                if is_char c' 93 then Some (Arr [], r)
                else '(l, r) ← parse_elements fuel rest; Some (Arr l, r)
            | EmptyString => None
            end
          else if is_char c 123 then
            match skip_ws rest with
            | String c' r =>
                if is_char c' 125 then Some (Obj ∅, r)
                else '(l, r) ← parse_members fuel rest; Some (Obj (object_of l), r)
            | EmptyString => None
            end
          else '(n, r) ← parse_number s; Some (Num n, r)
      end
  end
with parse_elements (fuel : nat) (s : string) {struct fuel}
  : option (list value * string) :=
  match fuel with
  | O => None
  | Datatypes.S fuel =>
      '(v, r) ← parse_value fuel s;
      match skip_ws r with
      | String c r' =>
          if is_char c 44 then
            '(vs, r'') ← parse_elements fuel r'; Some (v :: vs, r'')
          else if is_char c 93 then Some ([v], r')
          else None
      | EmptyString => None
      end
  end
with parse_members (fuel : nat) (s : string) {struct fuel}
  : option (list (string * value) * string) :=
  match fuel with
  | O => None
  | Datatypes.S fuel =>
      match skip_ws s with
      | String q r0 =>
          if is_char q 34 then
            '(k, r1) ← parse_chars r0;
            match skip_ws r1 with
            | String colon r2 =>
                if is_char colon 58 then
                  '(v, r3) ← parse_value fuel r2;
                  match skip_ws r3 with
                  | String c r4 =>
                      if is_char c 44 then
                        '(ms, r5) ← parse_members fuel r4;
                        Some ((k, v) :: ms, r5)
                      else if is_char c 125 then Some ([(k, v)], r4)
                      else None
                  | EmptyString => None
                  end
                else None
            | EmptyString => None
            end
          else None
      | EmptyString => None
      end
  end.

Definition parse (s : string) : completion value :=
  match parse_value (2 * String.length s + 2) s with
  | Some (v, rest) =>
      match skip_ws rest with
      | EmptyString => Normal v
      | String _ _ => Throw (SyntaxError "Unexpected non-whitespace character after JSON")
      end
  | None => Throw (SyntaxError "Unexpected token in JSON")
  end.

#[export] Instance runtime : Runtime := {|
  Number_toString := toString;
  JSON_stringify := stringify;
  JSON_parse := parse;
  JSON_parse_empty := eq_refl;
|}.

End ReferenceRuntime.


(** ** Sample data *)

Module Sample.

Definition ann : RecordAny := {[ "name" := Str "Ann" ]}.

(** An in-memory store with one record, for user 7. *)
Definition one_record : MemoryStorage.t :=
  {[ int 7 := MemoryStorage.mkStorageData (Some "step1") ann ]}.

(** Not an integer. *)
Definition half : number := Finite (Q2Qc (1 # 2)).

(** The external backend with the default prefix, without and with a
    time-to-live. *)
Definition fsm : RedisStorage.t := RedisStorage.new None None.

Definition fsm_ttl (seconds : number) : RedisStorage.t :=
  RedisStorage.new None (Some seconds).

(** A session in state [a] with no data, and nothing recorded yet. *)
Definition in_a : session (list (option string * option string)) :=
  (mkSession (Some "a") ∅, []).

(** A global callback that records who changed from what to what. *)
Definition journal : Type := list (number * option string * option string).

Definition global_recorder : number -> callback journal :=
  fun userId oldState newState w => w ++ [(userId, oldState, newState)].

(** Three downstream handlers over the facade: one enters a state and stores
    a field, one calls [fsm.clear()], one touches nothing. *)
Definition registration : Plugin.NextFunction RecordAny journal :=
  Plugin.mkNext
    (fun o => (Normal tt, o))
    (fun onStateChange so =>
       let '(b, o) :=
         ByReference.on_session
           (StateNamespace.set onStateChange "awaiting_name") so in
       (Normal tt, (ByReference.DataNamespace.set "name" (Str "Ann") b, o))).

Definition finish : Plugin.NextFunction RecordAny journal :=
  Plugin.mkNext
    (fun o => (Normal tt, o))
    (fun onStateChange so => (Normal tt, ByReference.fsm_clear onStateChange so)).

Definition idle : Plugin.NextFunction RecordAny journal :=
  Plugin.mkNext (fun o => (Normal tt, o)) (fun _ so => (Normal tt, so)).

(** A process with an empty in-memory backend, and the one after user 7 has
    registered. *)
Definition boot : Plugin.world MemoryStorage.t RecordAny journal :=
  Plugin.mkWorld MemoryStorage.new [] [].

Definition registered : Plugin.world MemoryStorage.t RecordAny journal :=
  Plugin.mkWorld
    {[ int 7 := MemoryStorage.mkStorageData (Some "awaiting_name") ann ]} [] [].

(** A client that holds one text, under the data sub-key of user 1. *)
Definition holding (blob : string) : Redis.client :=
  Redis.mkClient {[ "fsm:1:data" := Redis.mkEntry blob None ]} [].

(** The JSON text of the string [abc] (with its quotes), and a text that is
    not JSON. *)
Definition abc_text : string := ReferenceRuntime.stringify (Str "abc").

Definition broken_text : string := "{oops".

Definition a1 : RecordAny := {[ "a" := Num (int 1) ]}.

Definition a2b3 : RecordAny := {[ "a" := Num (int 2); "b" := Num (int 3) ]}.

(** [{0: "a", 1: "b", 2: "c", a: 1}] and [{a: undefined}] *)
Definition abc_a1 : RecordAny :=
  {[ "0" := Str "a"; "1" := Str "b"; "2" := Str "c"; "a" := Num (int 1) ]}.

Definition a_undefined : RecordAny := {[ "a" := Undefined ]}.

End Sample.

Module MoreSamples.

(** An in-memory store with records for users 7 and 8. *)
Definition two_records : MemoryStorage.t :=
  <[ int 8 := MemoryStorage.mkStorageData (Some "step2") ∅ ]> Sample.one_record.

(** A client that holds a state and the text of a mapping for user 1. *)
Definition registered_client : Redis.client :=
  Redis.mkClient
    {[ "fsm:1:state" := Redis.mkEntry "step1" None;
       "fsm:1:data" := Redis.mkEntry
                         (ReferenceRuntime.stringify (Obj Sample.ann)) None ]}
    [].

(** A session with the field [name]. *)
Definition named : FSMSessionData RecordAny := mkSession (Some "step1") Sample.ann.

(** [{name: "Ann", age: 30}] *)
Definition ann_30 : RecordAny :=
  {[ "name" := Str "Ann"; "age" := Num (int 30) ]}.

(** Handlers over the facade that throw after [ctx.data.age = 30], and
    handlers that throw after [ctx.data.clear(); ctx.data.age = 30]. *)
Definition failing : Plugin.NextFunction RecordAny Sample.journal :=
  Plugin.mkNext
    (fun o => (Normal tt, o))
    (fun _ '(b, o) =>
       (Throw (Error "handler failed"),
        (snd (ByReference.DataNamespace.Proxy.set "age" (Num (int 30)) b), o))).

Definition failing_afresh : Plugin.NextFunction RecordAny Sample.journal :=
  Plugin.mkNext
    (fun o => (Normal tt, o))
    (fun _ '(b, o) =>
       let b := ByReference.DataNamespace.clear b in
       (Throw (Error "handler failed"),
        (snd (ByReference.DataNamespace.Proxy.set "age" (Num (int 30)) b), o))).

(** Handlers for the external backend: one sets a state and replaces the
    data by a mapping, one touches nothing. *)
Definition enrol : Plugin.NextFunction value Sample.journal :=
  Plugin.mkNext
    (fun o => (Normal tt, o))
    (fun _ '(b, o) =>
       (Normal tt,
        (ByReference.mk
           (mkSession (Some "awaiting_name") (ByReference.Other (Obj Sample.ann)))
           (ByReference.loaded b), o))).

Definition bystander : Plugin.NextFunction value Sample.journal :=
  Plugin.mkNext (fun o => (Normal tt, o)) (fun _ so => (Normal tt, so)).

(** A process on the external backend, nothing stored yet. *)
Definition connected : Plugin.world Redis.client value Sample.journal :=
  Plugin.mkWorld Redis.connect [] [].

(** Options that ask for the external backend on a client, with a
    time-to-live and no prefix; the same without a client. *)
Definition redis_options : Options.FSMOptions unit :=
  Options.mkOptions (Options.Named "redis")
    (Some (Options.mkRedisOptions (Some Redis.connect) None))
    (Some (int 3600)).

Definition clientless_options : Options.FSMOptions unit :=
  Options.mkOptions (Options.Named "redis") None None.

End MoreSamples.

(** * Properties *)

(** ** Plain objects *)

Lemma keys_length_0 (o : RecordAny) : length (keys o) = 0%nat ↔ o = ∅.
Proof.
  unfold keys. rewrite length_fmap. split.
  - intros Hlen. apply map_to_list_empty_iff. by apply nil_length_inv.
  - intros ->. by rewrite map_to_list_empty.
Qed.

Lemma keys_nonempty (o : RecordAny) : (0 <? length (keys o))%nat = true ↔ o ≠ ∅.
Proof.
  rewrite Nat.ltb_lt, <- keys_length_0. lia.
Qed.

Lemma list_to_map_own_properties_Obj (m : RecordAny) :
  list_to_map (own_properties (Obj m)) = m.
Proof. simpl. apply list_to_map_to_list. Qed.

Lemma spread2_Obj (a b : RecordAny) : spread2 (Obj a) (Obj b) = b ∪ a.
Proof. unfold spread2. by rewrite !list_to_map_own_properties_Obj. Qed.

(** ** The in-memory backend *)

Section MemoryStorageFacts.

Import MemoryStorage.

Implicit Types (userId : number) (storage : MemoryStorage.t).

Lemma memory_getData_stored userId storage :
  MemoryStorage.getData userId storage
  = match stored userId storage with
    | Some m => if bool_decide (m = ∅) then None else Some m
    | None => None
    end.
Proof.
  unfold MemoryStorage.getData, stored.
  destruct (data <$> storage !! userId) as [m|]; [|done].
  case_bool_decide as Hm.
  - subst m. done.
  - apply keys_nonempty in Hm. by rewrite Hm.
Qed.

Lemma memory_getData_None userId storage :
  MemoryStorage.getData userId storage = None
  ↔ stored userId storage = None ∨ stored userId storage = Some ∅.
Proof.
  rewrite memory_getData_stored.
  destruct (stored userId storage) as [m|]; [|by split; [left|]].
  case_bool_decide as Hm.
  - subst m. by split; [right|].
  - split; [done|]. intros [?|?]; congruence.
Qed.

Lemma memory_getData_Some userId storage (m : RecordAny) :
  stored userId storage = Some m → m ≠ ∅ →
  MemoryStorage.getData userId storage = Some m.
Proof.
  intros Hm Hne. rewrite memory_getData_stored, Hm.
  by rewrite bool_decide_eq_false_2.
Qed.

Lemma memory_setState_lookup userId (s : string) storage :
  setState userId s storage !! userId
  = Some (mkStorageData (Some s) (default ∅ (stored userId storage))).
Proof.
  unfold setState, current, stored. rewrite lookup_insert_eq.
  by destruct (storage !! userId).
Qed.

Lemma memory_setData_lookup userId (d : RecordAny) storage :
  setData userId d storage !! userId
  = Some (mkStorageData (getState userId storage) d).
Proof.
  unfold setData, current, getState. rewrite lookup_insert_eq.
  by destruct (storage !! userId).
Qed.

Lemma memory_updateData_lookup userId (p : RecordAny) storage :
  updateData userId p storage !! userId
  = Some (mkStorageData (getState userId storage)
                        (p ∪ default ∅ (stored userId storage))).
Proof.
  unfold updateData, current, getState, stored.
  rewrite lookup_insert_eq, spread2_Obj.
  by destruct (storage !! userId).
Qed.

(** C10: [setState] keeps the data mapping of the key and [setData] keeps its
    state; on a key without a record each creates the record, with the
    component it does not set at its default (no state, empty mapping).  The
    same is seen through the getters: [getData] reads the same before and
    after [setState], and [getState] before and after [setData]. *)
Theorem memory_set_frame userId (s : string) (d : RecordAny) storage :
  (∀ r, storage !! userId = Some r →
     setState userId s storage !! userId = Some (mkStorageData (Some s) (data r))
     ∧ setData userId d storage !! userId = Some (mkStorageData (state r) d))
  ∧ (storage !! userId = None →
     setState userId s storage !! userId = Some (mkStorageData (Some s) ∅)
     ∧ setData userId d storage !! userId = Some (mkStorageData None d))
  ∧ MemoryStorage.getData userId (setState userId s storage)
    = MemoryStorage.getData userId storage
  ∧ getState userId (setData userId d storage) = getState userId storage.
Proof.
  pose proof (memory_setState_lookup userId s storage) as Hs.
  pose proof (memory_setData_lookup userId d storage) as Hd.
  split; [|split; [|split]].
  - intros r Hr. rewrite Hs, Hd. unfold stored, getState. by rewrite Hr.
  - intros Hr. rewrite Hs, Hd. unfold stored, getState. by rewrite Hr.
  - rewrite !memory_getData_stored. unfold stored at 1. rewrite Hs. simpl.
    destruct (stored userId storage) as [m|]; simpl; [done|].
    by rewrite bool_decide_eq_true_2.
  - unfold getState at 1. by rewrite Hd.
Qed.

End MemoryStorageFacts.

(** On the record of user 7 the data mapping survives [setState] and the
    state survives [setData]; on a store without a record for user 8 each
    creates the record with the defaults. *)
Lemma memory_set_frame_witness :
  (MemoryStorage.setState (int 7) "step2" Sample.one_record !! int 7
     = Some (MemoryStorage.mkStorageData (Some "step2") Sample.ann)
   ∧ MemoryStorage.setData (int 7) ∅ Sample.one_record !! int 7
     = Some (MemoryStorage.mkStorageData (Some "step1") ∅))
  ∧ (MemoryStorage.setState (int 8) "step2" MemoryStorage.new !! int 8
     = Some (MemoryStorage.mkStorageData (Some "step2") ∅)
   ∧ MemoryStorage.setData (int 8) Sample.ann MemoryStorage.new !! int 8
     = Some (MemoryStorage.mkStorageData None Sample.ann)).
Proof.
  split.
  - exact (proj1 (memory_set_frame (int 7) "step2" ∅ Sample.one_record) _ eq_refl).
  - exact (proj1 (proj2 (memory_set_frame (int 8) "step2" Sample.ann
                           MemoryStorage.new)) eq_refl).
Defined.

(** ** The external backend *)

Section RedisStorageFacts.

Context `{Runtime}.

Import RedisStorage.

Implicit Types (this : RedisStorage.t) (userId : number) (c : Redis.client).

Lemma sanitizeUserId_valid userId :
  positive_integer userId = true →
  sanitizeUserId userId = Normal (Number_toString userId).
Proof.
  unfold positive_integer, sanitizeUserId.
  intros [Hint Hpos]%andb_true_iff. rewrite Hint.
  apply negb_true_iff in Hpos. by rewrite Hpos.
Qed.

Lemma sanitizeUserId_invalid userId :
  positive_integer userId = false →
  sanitizeUserId userId
  = Throw (Error ("Invalid userId: " +:+ Number_toString userId)).
Proof.
  unfold positive_integer, sanitizeUserId.
  intros [Hint | Hpos]%andb_false_iff.
  - by rewrite Hint.
  - apply negb_false_iff in Hpos. rewrite Hpos. by rewrite orb_true_r.
Qed.

Lemma getStateKey_valid this userId :
  positive_integer userId = true →
  getStateKey this userId
  = Normal (keyPrefix this +:+ Number_toString userId +:+ ":state").
Proof. intros Hv. unfold getStateKey. by rewrite sanitizeUserId_valid. Qed.

Lemma getDataKey_valid this userId :
  positive_integer userId = true →
  getDataKey this userId
  = Normal (keyPrefix this +:+ Number_toString userId +:+ ":data").
Proof. intros Hv. unfold getDataKey. by rewrite sanitizeUserId_valid. Qed.

(** C7: a user key that is not a positive integer makes every operation
    throw the invalid-key error while the key is derived; the client is left
    exactly as it was, so it has been sent no command. *)
Theorem redis_invalid_userId this userId (s : string) (d : value) c :
  positive_integer userId = false →
  let e := Error ("Invalid userId: " +:+ Number_toString userId) in
  setState this userId s c = (Throw e, c)
  ∧ getState this userId c = (Throw e, c)
  ∧ setData this userId d c = (Throw e, c)
  ∧ RedisStorage.getData this userId c = (Throw e, c)
  ∧ updateData this userId d c = (Throw e, c)
  ∧ clear this userId c = (Throw e, c).
Proof.
  intros Hinv e.
  pose proof (sanitizeUserId_invalid userId Hinv) as Hs.
  unfold setState, getState, setData, updateData, RedisStorage.getData, clear,
    bind, lift, getStateKey, getDataKey.
  rewrite Hs. by repeat split.
Qed.

(** What [write] sends and leaves behind. *)
Lemma write_expiring this (key v : string) (seconds : number) c :
  ttl this = Some seconds → number_truthy seconds = true →
  write this key v c
  = (Normal tt,
     Redis.mkClient (<[key := Redis.mkEntry v (Some seconds)]> (Redis.entries c))
                    (Redis.issued c ++ [Redis.SETEX key seconds v])).
Proof. intros Ht Hs. unfold write. by rewrite Ht, Hs. Qed.

Lemma write_plain this (key v : string) c :
  (ttl this = None
   ∨ ∃ seconds, ttl this = Some seconds ∧ number_truthy seconds = false) →
  write this key v c
  = (Normal tt,
     Redis.mkClient (<[key := Redis.mkEntry v None]> (Redis.entries c))
                    (Redis.issued c ++ [Redis.SET key v])).
Proof.
  intros [Ht | (seconds & Ht & Hs)]; unfold write; rewrite Ht; [done|].
  by rewrite Hs.
Qed.

Lemma write_payload this (key v : string) c :
  fst (write this key v c) = Normal tt
  ∧ Redis.payload <$> Redis.entries (snd (write this key v c)) !! key = Some v.
Proof.
  unfold write.
  destruct (ttl this) as [seconds|]; [destruct (number_truthy seconds)|];
    simpl; by rewrite lookup_insert_eq.
Qed.

Lemma setState_valid this userId (s : string) c :
  positive_integer userId = true →
  setState this userId s c
  = write this (keyPrefix this +:+ Number_toString userId +:+ ":state") s c.
Proof.
  intros Hv. unfold setState, bind, lift. by rewrite getStateKey_valid.
Qed.

Lemma setData_valid this userId (d : value) c :
  positive_integer userId = true →
  setData this userId d c
  = write this (keyPrefix this +:+ Number_toString userId +:+ ":data")
          (JSON_stringify d) c.
Proof.
  intros Hv. unfold setData, bind, lift. by rewrite getDataKey_valid.
Qed.

(** C8, as the code has it: with a configured time-to-live that is truthy
    (neither [0] nor [NaN]), [setState] and [setData] each send the one command
    [SETEX] with that time-to-live on the derived sub-key; with none
    configured, or a falsy one, each sends the one command [SET], and the entry
    has no expiry. *)
Theorem redis_write_command this userId (s : string) (d : value) c :
  positive_integer userId = true →
  let stateKey := keyPrefix this +:+ Number_toString userId +:+ ":state" in
  let dataKey := keyPrefix this +:+ Number_toString userId +:+ ":data" in
  (∀ seconds, ttl this = Some seconds → number_truthy seconds = true →
     Redis.issued (snd (setState this userId s c))
       = Redis.issued c ++ [Redis.SETEX stateKey seconds s]
     ∧ Redis.entries (snd (setState this userId s c)) !! stateKey
       = Some (Redis.mkEntry s (Some seconds))
     ∧ Redis.issued (snd (setData this userId d c))
       = Redis.issued c ++ [Redis.SETEX dataKey seconds (JSON_stringify d)]
     ∧ Redis.entries (snd (setData this userId d c)) !! dataKey
       = Some (Redis.mkEntry (JSON_stringify d) (Some seconds)))
  ∧ ((ttl this = None
      ∨ ∃ seconds, ttl this = Some seconds ∧ number_truthy seconds = false) →
     Redis.issued (snd (setState this userId s c))
       = Redis.issued c ++ [Redis.SET stateKey s]
     ∧ Redis.entries (snd (setState this userId s c)) !! stateKey
       = Some (Redis.mkEntry s None)
     ∧ Redis.issued (snd (setData this userId d c))
       = Redis.issued c ++ [Redis.SET dataKey (JSON_stringify d)]
     ∧ Redis.entries (snd (setData this userId d c)) !! dataKey
       = Some (Redis.mkEntry (JSON_stringify d) None)).
Proof.
  intros Hv stateKey dataKey.
  rewrite (setState_valid _ _ _ _ Hv), (setData_valid _ _ _ _ Hv).
  fold stateKey dataKey. split.
  - intros seconds Ht Hs. rewrite !(write_expiring _ _ _ seconds) by done.
    simpl. by rewrite !lookup_insert_eq.
  - intros Hplain. rewrite !write_plain by done.
    simpl. by rewrite !lookup_insert_eq.
Qed.

(** *** Reading the data sub-key *)

Lemma getData_valid this userId c :
  positive_integer userId = true →
  RedisStorage.getData this userId c
  = (Normal (reading (text this userId c)),
     Redis.mkClient (Redis.entries c)
       (Redis.issued c
        ++ [Redis.GET (keyPrefix this +:+ Number_toString userId +:+ ":data")])).
Proof.
  intros Hv. unfold RedisStorage.getData, text, bind, lift, Redis.get.
  rewrite getDataKey_valid by done. simpl.
  destruct (Redis.payload <$> Redis.entries c !! _) as [blob|]; [|done].
  by destruct blob.
Qed.

Lemma text_getData this userId c :
  positive_integer userId = true →
  text this userId (snd (RedisStorage.getData this userId c)) = text this userId c.
Proof. intros Hv. by rewrite getData_valid. Qed.

Lemma decode_throws (blob : string) :
  throws (JSON_parse blob) = true →
  try_catch (decode blob) (fun _ => None) = None.
Proof. unfold decode. by destruct (JSON_parse blob). Qed.

Lemma decode_value (blob : string) (v : value) :
  JSON_parse blob = Normal v →
  try_catch (decode blob) (fun _ => None)
  = match own_properties v with [] => None | _ :: _ => Some v end.
Proof.
  intros Hv. unfold decode. rewrite Hv.
  destruct v; simpl; try done;
    match goal with |- context [length (?l.*1)] => by destruct l end.
Qed.

Lemma reading_throws (blob : string) :
  throws (JSON_parse blob) = true → reading (Some blob) = None.
Proof. destruct blob; [done|]. apply decode_throws. Qed.

Lemma reading_value (blob : string) (v : value) :
  JSON_parse blob = Normal v →
  reading (Some blob)
  = match own_properties v with [] => None | _ :: _ => Some v end.
Proof.
  intros Hv. destruct blob.
  - pose proof JSON_parse_empty as He. rewrite Hv in He. discriminate.
  - by apply decode_value.
Qed.

Lemma own_properties_Obj_nil (m : RecordAny) :
  own_properties (Obj m) = [] ↔ m = ∅.
Proof. simpl. apply map_to_list_empty_iff. Qed.

Lemma reading_mapping (blob : string) (m : RecordAny) :
  JSON_parse blob = Normal (Obj m) →
  reading (Some blob) = if bool_decide (m = ∅) then None else Some (Obj m).
Proof.
  intros Hv. rewrite (reading_value _ _ Hv).
  case_bool_decide as Hm.
  - apply own_properties_Obj_nil in Hm. by rewrite Hm.
  - destruct (own_properties (Obj m)) eqn:Hp; [|done].
    by apply own_properties_Obj_nil in Hp.
Qed.

(** *** Read, merge, write *)

Lemma updateData_valid this userId (d : value) c :
  positive_integer userId = true →
  fst (updateData this userId d c) = Normal tt
  ∧ text this userId (snd (updateData this userId d c))
    = Some (JSON_stringify
              (Obj (spread2 (default (Obj ∅) (reading (text this userId c))) d))).
Proof.
  intros Hv. unfold updateData, bind.
  rewrite getData_valid by done.
  rewrite setData_valid by done.
  set (c1 := Redis.mkClient _ _). set (v := JSON_stringify _).
  destruct (write_payload this
    (keyPrefix this +:+ Number_toString userId +:+ ":data") v c1) as [Hr Hp].
  split; [exact Hr|].
  unfold text. rewrite getDataKey_valid by done. exact Hp.
Qed.

(** *** What [getData] returns, and what [updateData] writes *)

(** C4, as the code has it: for a text under the data sub-key of a valid
    user key, [getData] never throws; it returns nothing when decoding the
    text throws, and when the decoded value has no property of its own
    ([null], a number, a boolean, an empty string, array or mapping); a decoded
    value that has properties of its own is returned as it is, a mapping or
    not. *)
Theorem redis_getData_undecodable this userId c (blob : string) :
  positive_integer userId = true →
  text this userId c = Some blob →
  (∃ r, fst (RedisStorage.getData this userId c) = Normal r)
  ∧ (throws (JSON_parse blob) = true →
     fst (RedisStorage.getData this userId c) = Normal None)
  ∧ (∀ v, JSON_parse blob = Normal v → own_properties v = [] →
     fst (RedisStorage.getData this userId c) = Normal None)
  ∧ (∀ v, JSON_parse blob = Normal v → own_properties v ≠ [] →
     fst (RedisStorage.getData this userId c) = Normal (Some v)).
Proof.
  intros Hv Ht. rewrite getData_valid by done. rewrite Ht. cbn [fst].
  split; [by eexists|]. split; [|split].
  - intros Hthrow. by rewrite reading_throws.
  - intros v Hp Hown. by rewrite (reading_value _ _ Hp), Hown.
  - intros v Hp Hown. rewrite (reading_value _ _ Hp).
    by destruct (own_properties v).
Qed.

Lemma redis_getData_stored this userId c :
  positive_integer userId = true →
  (∀ blob v, text this userId c = Some blob → JSON_parse blob = Normal v →
     own_properties v ≠ [] → ∃ m : RecordAny, v = Obj m) →
  fst (RedisStorage.getData this userId c)
  = Normal (match stored this userId c with
            | Some m => if bool_decide (m = ∅) then None else Some (Obj m)
            | None => None
            end).
Proof.
  intros Hv Hshape. rewrite getData_valid by done. cbn [fst]. f_equal.
  unfold stored. destruct (text this userId c) as [blob|]; [|done].
  destruct (JSON_parse blob) as [v|e] eqn:Hp.
  - destruct (own_properties v) eqn:Hown.
    + rewrite (reading_value _ _ Hp), Hown.
      destruct v; try done.
      apply own_properties_Obj_nil in Hown. by rewrite bool_decide_eq_true_2.
    + destruct (Hshape blob v eq_refl Hp) as [m ->]; [by rewrite Hown|].
      by apply reading_mapping.
  - apply reading_throws. by rewrite Hp.
Qed.

Lemma redis_getData_stored_Some this userId c (m : RecordAny) :
  positive_integer userId = true →
  stored this userId c = Some m →
  fst (RedisStorage.getData this userId c)
  = Normal (if bool_decide (m = ∅) then None else Some (Obj m)).
Proof.
  intros Hv Hm. rewrite getData_valid by done. cbn [fst]. f_equal.
  unfold stored in Hm. destruct (text this userId c) as [blob|]; [|done].
  destruct (JSON_parse blob) as [[]|] eqn:Hp; try done.
  injection Hm as ->. by apply reading_mapping.
Qed.

Lemma redis_updateData_stored this userId (p m : RecordAny) c :
  positive_integer userId = true →
  stored this userId c = Some m →
  text this userId (snd (updateData this userId (Obj p) c))
  = Some (JSON_stringify (Obj (p ∪ m))).
Proof.
  intros Hv Hm.
  destruct (updateData_valid this userId (Obj p) c Hv) as [_ ->].
  pose proof (redis_getData_stored_Some this userId c m Hv Hm) as Hg.
  rewrite getData_valid in Hg by done. cbn [fst] in Hg. injection Hg as ->.
  case_bool_decide as He; simpl; rewrite spread2_Obj; [|done].
  subst m. done.
Qed.

Lemma redis_updateData_fresh this userId (p : RecordAny) c :
  positive_integer userId = true →
  text this userId c = None →
  text this userId (snd (updateData this userId (Obj p) c))
  = Some (JSON_stringify (Obj p)).
Proof.
  intros Hv Hm.
  destruct (updateData_valid this userId (Obj p) c Hv) as [_ ->].
  rewrite Hm. simpl. rewrite spread2_Obj. by rewrite (right_id_L ∅ (∪)).
Qed.

(** What [getData] fetches is the stored mapping, when every text that
    decodes to a value with properties of its own decodes to a mapping: the
    merge is then that of the stored mapping, or of the empty one. *)
Lemma redis_updateData_merged this userId (p : RecordAny) c :
  positive_integer userId = true →
  (∀ blob v, text this userId c = Some blob → JSON_parse blob = Normal v →
     own_properties v ≠ [] → ∃ m : RecordAny, v = Obj m) →
  text this userId (snd (updateData this userId (Obj p) c))
  = Some (JSON_stringify (Obj (p ∪ default ∅ (stored this userId c))))
  ∧ (JSON_parse (JSON_stringify (Obj (p ∪ default ∅ (stored this userId c))))
       = Normal (Obj (p ∪ default ∅ (stored this userId c))) →
     stored this userId (snd (updateData this userId (Obj p) c))
     = Some (p ∪ default ∅ (stored this userId c))).
Proof.
  intros Hv Hshape.
  assert (Htext : text this userId (snd (updateData this userId (Obj p) c))
    = Some (JSON_stringify (Obj (p ∪ default ∅ (stored this userId c))))).
  { destruct (updateData_valid this userId (Obj p) c Hv) as [_ ->].
    pose proof (redis_getData_stored this userId c Hv Hshape) as Hg.
    rewrite getData_valid in Hg by done. cbn [fst] in Hg. injection Hg as ->.
    destruct (stored this userId c) as [m|].
    - case_bool_decide as He; simpl; rewrite spread2_Obj; [|done].
      by subst m.
    - simpl. by rewrite spread2_Obj. }
  split; [exact Htext|].
  intros Hround. unfold stored at 1. by rewrite Htext, Hround.
Qed.

End RedisStorageFacts.

(** ** Both backends *)

Lemma a2b3_over_a1 : Sample.a2b3 ∪ Sample.a1 = Sample.a2b3.
Proof.
  unfold Sample.a2b3, Sample.a1. apply map_eq. intros k.
  rewrite lookup_union.
  destruct (decide (k = "a")) as [->|Ha].
  - by rewrite lookup_insert_eq, lookup_singleton_eq.
  - rewrite lookup_insert_ne by done.
    rewrite (lookup_singleton_ne "a" k) by done.
    by destruct ({[ "b" := Num (int 3) ]} !! k).
Qed.

(** C5, as the code has it.  In memory, [getData] returns nothing exactly
    when the key has no mapping or an empty one, and the stored mapping
    otherwise.  The external backend does the same for a valid user key, as
    long as a text that decodes to a value with properties of its own decodes
    to a mapping; a mapping that is stored and not empty is always returned. *)
Theorem getData_none_iff_nothing_stored :
  (∀ (userId : number) (storage : MemoryStorage.t),
     (MemoryStorage.getData userId storage = None
      ↔ MemoryStorage.stored userId storage = None
        ∨ MemoryStorage.stored userId storage = Some ∅)
     ∧ (∀ m : RecordAny,
          MemoryStorage.stored userId storage = Some m → m ≠ ∅ →
          MemoryStorage.getData userId storage = Some m))
  ∧ (∀ (R : Runtime) (this : RedisStorage.t) (userId : number)
       (c : Redis.client),
     positive_integer userId = true →
     (∀ m : RecordAny,
        RedisStorage.stored this userId c = Some m → m ≠ ∅ →
        fst (RedisStorage.getData this userId c) = Normal (Some (Obj m)))
     ∧ ((∀ blob v, RedisStorage.text this userId c = Some blob →
           JSON_parse blob = Normal v → own_properties v ≠ [] →
           ∃ m : RecordAny, v = Obj m) →
        (fst (RedisStorage.getData this userId c) = Normal None
         ↔ RedisStorage.stored this userId c = None
           ∨ RedisStorage.stored this userId c = Some ∅))).
Proof.
  split.
  - intros userId storage. split.
    + apply memory_getData_None.
    + apply memory_getData_Some.
  - intros R this userId c Hv. split.
    + intros m Hm Hne. rewrite (redis_getData_stored_Some _ _ _ m) by done.
      by rewrite bool_decide_eq_false_2.
    + intros Hshape. rewrite redis_getData_stored by done.
      destruct (RedisStorage.stored this userId c) as [m|];
        [|by split; [left|]].
      case_bool_decide as Hm.
      * subst m. by split; [right|].
      * split; [done|]. intros [?|?]; congruence.
Qed.

(** C6, as the code has it.  In memory the record of the key gets the union
    [p ∪ m] of the partial [p] and the stored mapping [m] (empty when there is
    none): the shallow merge, the partial winning.  On the external backend,
    for a valid user key, [updateData] writes the text of the merge of what
    [getData] reads (the empty mapping when it reads nothing) with the
    partial.  That is the text of [p ∪ m], for [m] the stored mapping or the
    empty one, as long as a text that decodes to a value with properties of
    its own decodes to a mapping; and the mapping stored afterwards is
    [p ∪ m] when the text of [p ∪ m] parses back to it.  Updating with
    [{a:1}] and then with [{a:2,b:3}] a key that holds nothing leaves
    [{a:2,b:3}] (on the external backend: given that the texts of the two
    mappings parse back to them). *)
Theorem updateData_shallow_merge :
  (∀ (userId : number) (p : RecordAny) (storage : MemoryStorage.t),
     MemoryStorage.updateData userId p storage !! userId
     = Some (MemoryStorage.mkStorageData
               (MemoryStorage.getState userId storage)
               (p ∪ default ∅ (MemoryStorage.stored userId storage))))
  ∧ (∀ (userId : number) (storage : MemoryStorage.t),
     MemoryStorage.getData userId storage = None →
     MemoryStorage.stored userId
       (MemoryStorage.updateData userId {[ "a" := Num (int 2); "b" := Num (int 3) ]}
          (MemoryStorage.updateData userId {[ "a" := Num (int 1) ]} storage))
     = Some {[ "a" := Num (int 2); "b" := Num (int 3) ]})
  ∧ (∀ (R : Runtime) (this : RedisStorage.t) (userId : number)
       (p : RecordAny) (c : Redis.client),
     positive_integer userId = true →
     let c' := snd (RedisStorage.updateData this userId (Obj p) c) in
     let merged := p ∪ default ∅ (RedisStorage.stored this userId c) in
     fst (RedisStorage.updateData this userId (Obj p) c) = Normal tt
     ∧ (∀ fetched,
          fst (RedisStorage.getData this userId c) = Normal fetched →
          RedisStorage.text this userId c'
          = Some (JSON_stringify
                    (Obj (spread2 (default (Obj ∅) fetched) (Obj p)))))
     ∧ ((∀ blob v, RedisStorage.text this userId c = Some blob →
           JSON_parse blob = Normal v → own_properties v ≠ [] →
           ∃ m : RecordAny, v = Obj m) →
        RedisStorage.text this userId c' = Some (JSON_stringify (Obj merged))
        ∧ (JSON_parse (JSON_stringify (Obj merged)) = Normal (Obj merged) →
           RedisStorage.stored this userId c' = Some merged)))
  ∧ (∀ (R : Runtime) (this : RedisStorage.t) (userId : number)
       (c : Redis.client),
     positive_integer userId = true →
     RedisStorage.text this userId c = None →
     JSON_parse (JSON_stringify (Obj {[ "a" := Num (int 1) ]}))
       = Normal (Obj {[ "a" := Num (int 1) ]}) →
     let c'' :=
       snd (RedisStorage.updateData this userId
              (Obj {[ "a" := Num (int 2); "b" := Num (int 3) ]})
              (snd (RedisStorage.updateData this userId
                      (Obj {[ "a" := Num (int 1) ]}) c))) in
     RedisStorage.text this userId c''
     = Some (JSON_stringify (Obj {[ "a" := Num (int 2); "b" := Num (int 3) ]}))
     ∧ (JSON_parse (JSON_stringify
                      (Obj {[ "a" := Num (int 2); "b" := Num (int 3) ]}))
          = Normal (Obj {[ "a" := Num (int 2); "b" := Num (int 3) ]}) →
        RedisStorage.stored this userId c''
        = Some {[ "a" := Num (int 2); "b" := Num (int 3) ]})).
Proof.
  split; [|split; [|split]].
  - apply memory_updateData_lookup.
  - intros userId storage Hnone.
    apply memory_getData_None in Hnone.
    unfold MemoryStorage.stored at 1.
    rewrite !memory_updateData_lookup. cbn [fmap option_fmap option_map MemoryStorage.data].
    unfold MemoryStorage.stored at 1.
    rewrite memory_updateData_lookup. cbn [fmap option_fmap option_map MemoryStorage.data default].
    f_equal. fold Sample.a1 Sample.a2b3.
    replace (default ∅ (MemoryStorage.stored userId storage)) with (∅ : RecordAny)
      by (by destruct Hnone as [-> | ->]).
    rewrite map_union_empty. apply a2b3_over_a1.
  - intros R this userId p c Hv c' merged.
    destruct (updateData_valid this userId (Obj p) c Hv) as [Hr Ht].
    fold c' in Ht.
    split; [exact Hr|]. split.
    + intros fetched Hf. rewrite getData_valid in Hf by done.
      cbn [fst] in Hf. injection Hf as <-. exact Ht.
    + intros Hshape. apply redis_updateData_merged; done.
  - intros R this userId c Hv Hnone Hround1 c''. subst c''.
    fold Sample.a1 Sample.a2b3 in *.
    assert (Hfirst : RedisStorage.stored this userId
                       (snd (RedisStorage.updateData this userId
                               (Obj Sample.a1) c)) = Some Sample.a1).
    { unfold RedisStorage.stored.
      rewrite (redis_updateData_fresh this userId Sample.a1 c Hv Hnone).
      by rewrite Hround1. }
    assert (Htext : RedisStorage.text this userId
                      (snd (RedisStorage.updateData this userId
                              (Obj Sample.a2b3)
                              (snd (RedisStorage.updateData this userId
                                      (Obj Sample.a1) c))))
                    = Some (JSON_stringify (Obj Sample.a2b3))).
    { rewrite (redis_updateData_stored this userId Sample.a2b3 Sample.a1 _ Hv
                 Hfirst).
      by rewrite a2b3_over_a1. }
    split; [exact Htext|].
    intros Hround2. unfold RedisStorage.stored. by rewrite Htext, Hround2.
Qed.

(** *** On the reference runtime *)

Section RedisStorageExamples.

#[local] Existing Instance ReferenceRuntime.runtime.

(** Under the reference runtime: the keys [0], [-3], [1/2] and [NaN] are all
    refused, here by [setState], [getData], [updateData] and [clear], and the
    client has been sent nothing. *)
Lemma redis_invalid_userId_witness :
  RedisStorage.setState Sample.fsm (int 0) "step1" Redis.connect
    = (Throw (Error "Invalid userId: 0"), Redis.connect)
  ∧ RedisStorage.getData Sample.fsm (int (-3)) Redis.connect
    = (Throw (Error "Invalid userId: -3"), Redis.connect)
  ∧ RedisStorage.updateData Sample.fsm Sample.half (Obj Sample.ann) Redis.connect
    = (Throw (Error "Invalid userId: 0.5"), Redis.connect)
  ∧ RedisStorage.clear Sample.fsm NaN Redis.connect
    = (Throw (Error "Invalid userId: NaN"), Redis.connect).
Proof.
  split; [|split; [|split]].
  - exact (proj1 (redis_invalid_userId
      Sample.fsm (int 0) "step1" Null Redis.connect eq_refl)).
  - exact (proj1 (proj2 (proj2 (proj2 (redis_invalid_userId
     
      Sample.fsm (int (-3)) "step1" Null Redis.connect eq_refl))))).
  - exact (proj1 (proj2 (proj2 (proj2 (proj2 (redis_invalid_userId
     
      Sample.fsm Sample.half "step1" (Obj Sample.ann) Redis.connect eq_refl)))))).
  - exact (proj2 (proj2 (proj2 (proj2 (proj2 (redis_invalid_userId
     
      Sample.fsm NaN "step1" Null Redis.connect eq_refl)))))).
Defined.

(** C8 as stated fails for a configured time-to-live of [0]: the write for
    user 1 is the plain [SET], not a [SETEX] carrying [0], and the entry has no
    expiry. *)
Lemma redis_ttl_zero_is_plain_set :
  RedisStorage.ttl (Sample.fsm_ttl (int 0)) = Some (int 0)
  ∧ Redis.issued (snd (RedisStorage.setState
                         (Sample.fsm_ttl (int 0)) (int 1) "step1" Redis.connect))
    = [Redis.SET "fsm:1:state" "step1"]
  ∧ Redis.issued (snd (RedisStorage.setState
                         (Sample.fsm_ttl (int 0)) (int 1) "step1" Redis.connect))
    ≠ [Redis.SETEX "fsm:1:state" (int 0) "step1"].
Proof.
  split; [reflexivity|]. split; [reflexivity|]. discriminate.
Qed.

(** With a time-to-live of 3600 both writes for user 42 are [SETEX] with
    3600 seconds; without one both are [SET]. *)
Lemma redis_write_command_witness :
  (Redis.issued (snd (RedisStorage.setState
      (Sample.fsm_ttl (int 3600)) (int 42) "step1" Redis.connect))
     = [Redis.SETEX "fsm:42:state" (int 3600) "step1"]
   ∧ Redis.issued (snd (RedisStorage.setData
      (Sample.fsm_ttl (int 3600)) (int 42) (Obj Sample.ann) Redis.connect))
     = [Redis.SETEX "fsm:42:data" (int 3600)
          (ReferenceRuntime.stringify (Obj Sample.ann))])
  ∧ (Redis.issued (snd (RedisStorage.setState
      Sample.fsm (int 42) "step1" Redis.connect))
     = [Redis.SET "fsm:42:state" "step1"]
   ∧ Redis.issued (snd (RedisStorage.setData
      Sample.fsm (int 42) (Obj Sample.ann) Redis.connect))
     = [Redis.SET "fsm:42:data" (ReferenceRuntime.stringify (Obj Sample.ann))]).
Proof.
  split.
  - destruct (proj1 (redis_write_command
      (Sample.fsm_ttl (int 3600)) (int 42) "step1" (Obj Sample.ann)
      Redis.connect eq_refl) (int 3600) eq_refl eq_refl) as (Hs & _ & Hd & _).
    split; [exact Hs | exact Hd].
  - destruct (proj2 (redis_write_command
      Sample.fsm (int 42) "step1" (Obj Sample.ann)
      Redis.connect eq_refl) (or_introl eq_refl)) as (Hs & _ & Hd & _).
    split; [exact Hs | exact Hd].
Defined.

(** C4 as stated fails: the JSON text of the string [abc] does not decode to
    a mapping, and [getData] returns the string. *)
Lemma redis_getData_returns_decoded_string :
  RedisStorage.text Sample.fsm (int 1) (Sample.holding Sample.abc_text)
    = Some Sample.abc_text
  ∧ ¬ RedisStorage.decodes_to_mapping Sample.abc_text
  ∧ fst (RedisStorage.getData Sample.fsm (int 1) (Sample.holding Sample.abc_text))
    = Normal (Some (Str "abc"))
  ∧ fst (RedisStorage.getData Sample.fsm (int 1) (Sample.holding Sample.abc_text))
    ≠ Normal None.
Proof.
  split; [reflexivity|]. split; [|split; [reflexivity|discriminate]].
  intros [m Hm]. discriminate Hm.
Qed.

(** A text that is not JSON reads as nothing. *)
Lemma redis_getData_undecodable_witness :
  fst (RedisStorage.getData Sample.fsm (int 1) (Sample.holding Sample.broken_text))
  = Normal None.
Proof.
  exact (proj1 (proj2 (redis_getData_undecodable Sample.fsm (int 1)
    (Sample.holding Sample.broken_text) Sample.broken_text eq_refl eq_refl))
    eq_refl).
Defined.

(** C5 as stated fails on the external backend: with the JSON text of the
    string [abc] under the data sub-key no mapping is stored, yet [getData]
    does not return nothing. *)
Lemma redis_getData_some_without_mapping :
  RedisStorage.stored Sample.fsm (int 1) (Sample.holding Sample.abc_text) = None
  ∧ ¬ (fst (RedisStorage.getData Sample.fsm (int 1)
              (Sample.holding Sample.abc_text)) = Normal None
       ↔ RedisStorage.stored Sample.fsm (int 1) (Sample.holding Sample.abc_text)
           = None
         ∨ RedisStorage.stored Sample.fsm (int 1) (Sample.holding Sample.abc_text)
           = Some ∅).
Proof.
  split; [reflexivity|].
  intros [_ Hback]. specialize (Hback (or_introl eq_refl)). discriminate Hback.
Qed.

(** The record of user 7 in memory and the text of the same mapping on the
    external backend are both read back; a text that is not JSON reads as
    nothing, and no mapping is stored then. *)
Lemma getData_none_iff_nothing_stored_witness :
  MemoryStorage.getData (int 7) Sample.one_record = Some Sample.ann
  ∧ fst (RedisStorage.getData Sample.fsm (int 1)
           (Sample.holding (ReferenceRuntime.stringify (Obj Sample.ann))))
    = Normal (Some (Obj Sample.ann))
  ∧ (fst (RedisStorage.getData Sample.fsm (int 1)
            (Sample.holding Sample.broken_text)) = Normal None
     ↔ RedisStorage.stored Sample.fsm (int 1) (Sample.holding Sample.broken_text)
         = None
       ∨ RedisStorage.stored Sample.fsm (int 1) (Sample.holding Sample.broken_text)
         = Some ∅).
Proof.
  destruct getData_none_iff_nothing_stored as [Hmem Hredis].
  split; [|split].
  - apply (proj2 (Hmem (int 7) Sample.one_record)); [reflexivity|].
    intros Hempty. apply (f_equal (fun m : RecordAny => m !! "name")) in Hempty.
    discriminate Hempty.
  - apply (proj1 (Hredis _ Sample.fsm (int 1) _ eq_refl)); [reflexivity|].
    intros Hempty. apply (f_equal (fun m : RecordAny => m !! "name")) in Hempty.
    discriminate Hempty.
  - apply (proj2 (Hredis _ Sample.fsm (int 1) _ eq_refl)).
    intros blob v Ht Hp. injection Ht as <-. discriminate Hp.
Defined.

(** C6 as stated fails on the external backend.  With the JSON text of the
    string [abc] under the data sub-key no mapping is stored, yet an update
    with [{a:1}] stores the characters of the string beside [a], not the
    merge of the empty mapping with the partial.  And with nothing stored, an
    update with [{a: undefined}] stores the empty mapping, not the partial:
    the text of a mapping leaves out what JSON cannot write. *)
Lemma redis_updateData_not_the_merge :
  (RedisStorage.stored Sample.fsm (int 1) (Sample.holding Sample.abc_text)
     = None
   ∧ RedisStorage.stored Sample.fsm (int 1)
       (snd (RedisStorage.updateData Sample.fsm (int 1) (Obj Sample.a1)
               (Sample.holding Sample.abc_text)))
     = Some Sample.abc_a1
   ∧ Sample.abc_a1 ≠ Sample.a1 ∪ ∅)
  ∧ (RedisStorage.stored Sample.fsm (int 1) Redis.connect = None
     ∧ RedisStorage.stored Sample.fsm (int 1)
         (snd (RedisStorage.updateData Sample.fsm (int 1)
                 (Obj Sample.a_undefined) Redis.connect))
       = Some ∅
     ∧ (∅ : RecordAny) ≠ Sample.a_undefined ∪ ∅).
Proof.
  split; (split; [vm_compute; reflexivity|split; [vm_compute; reflexivity|]]).
  - intros Heq. apply (f_equal (fun m : RecordAny => m !! "0")) in Heq.
    vm_compute in Heq. discriminate Heq.
  - intros Heq. apply (f_equal (fun m : RecordAny => m !! "a")) in Heq.
    vm_compute in Heq. discriminate Heq.
Qed.

(** From nothing, [{a:1}] and then [{a:2,b:3}] leave the mapping [{a:2,b:3}]
    stored, in memory and on the external backend. *)
Lemma updateData_shallow_merge_witness :
  MemoryStorage.stored (int 7)
    (MemoryStorage.updateData (int 7) Sample.a2b3
       (MemoryStorage.updateData (int 7) Sample.a1 MemoryStorage.new))
  = Some Sample.a2b3
  ∧ RedisStorage.stored Sample.fsm (int 1)
      (snd (RedisStorage.updateData Sample.fsm (int 1) (Obj Sample.a2b3)
              (snd (RedisStorage.updateData Sample.fsm (int 1) (Obj Sample.a1)
                      Redis.connect))))
    = Some Sample.a2b3.
Proof.
  destruct updateData_shallow_merge as (_ & Hmem & _ & Hredis).
  assert (Hround1 : JSON_parse (JSON_stringify (Obj Sample.a1))
                    = Normal (Obj Sample.a1)) by (vm_compute; reflexivity).
  assert (Hround2 : JSON_parse (JSON_stringify (Obj Sample.a2b3))
                    = Normal (Obj Sample.a2b3)) by (vm_compute; reflexivity).
  split.
  - exact (Hmem (int 7) MemoryStorage.new eq_refl).
  - exact (proj2 (Hredis _ Sample.fsm (int 1) Redis.connect eq_refl eq_refl
                    Hround1) Hround2).
Defined.

End RedisStorageExamples.

(** ** The facade *)

Section FacadeFacts.

Context {W : Type}.

Implicit Types (cb : callback W) (sd : FSMSessionData RecordAny) (w : W).

Lemma fires_once_on_change_decide cb (oldState newState : option string) w :
  fires_once_on_change cb oldState newState w
    (if bool_decide (oldState ≠ newState) then cb oldState newState w else w).
Proof.
  unfold fires_once_on_change. by case_bool_decide; split.
Qed.

(** C3: with a callback configured, every state mutation of the facade
    leaves the new state in the session and has run the callback once, on
    (old state, new state), when the two differ, and not at all when they are
    the same: [state.set], [state.clear], the assignments [ctx.state = s],
    [ctx.state = null] and [ctx.state = undefined], [fsm.clear], and on the
    flat facade the setter of [fsm.state], [setState] and [clear]. *)
Theorem state_change_callback cb sd w (s : string) (v : option string)
    (strict : bool) :
  (∃ w', StateNamespace.set (Some cb) s (sd, w)
           = (mkSession (Some s) (data sd), w')
         ∧ fires_once_on_change cb (state sd) (Some s) w w')
  ∧ (∃ w', StateNamespace.clear (Some cb) (sd, w)
           = (mkSession None (data sd), w')
         ∧ fires_once_on_change cb (state sd) None w w')
  ∧ (∃ w', Context.assign_state (Some cb) strict (Str s) (sd, w)
           = (Normal tt, (mkSession (Some s) (data sd), w'))
         ∧ fires_once_on_change cb (state sd) (Some s) w w')
  ∧ (∃ w', Context.assign_state (Some cb) strict Null (sd, w)
           = (Normal tt, (mkSession None (data sd), w'))
         ∧ Context.assign_state (Some cb) strict Undefined (sd, w)
           = (Normal tt, (mkSession None (data sd), w'))
         ∧ fires_once_on_change cb (state sd) None w w')
  ∧ (∃ w', Context.fsm_clear (Some cb) (sd, w) = (mkSession None ∅, w')
         ∧ fires_once_on_change cb (state sd) None w w')
  ∧ (∃ w', FlatContext.set_state (Some cb) v (sd, w)
           = (mkSession v (data sd), w')
         ∧ fires_once_on_change cb (state sd) v w w')
  ∧ (∃ w', FlatContext.setState (Some cb) s (sd, w)
           = (mkSession (Some s) (data sd), w')
         ∧ fires_once_on_change cb (state sd) (Some s) w w')
  ∧ (∃ w', FlatContext.clear (Some cb) (sd, w) = (mkSession None ∅, w')
         ∧ fires_once_on_change cb (state sd) None w w').
Proof.
  pose (after new :=
    if bool_decide (state sd ≠ new) then cb (state sd) new w else w).
  assert (Hafter : ∀ new, fires_once_on_change cb (state sd) new w (after new))
    by (intros new; apply fires_once_on_change_decide).
  split; [|split; [|split; [|split; [|split; [|split; [|split]]]]]];
    [ exists (after (Some s)) | exists (after None) | exists (after (Some s))
    | exists (after None) | exists (after None) | exists (after v)
    | exists (after (Some s)) | exists (after None) ];
    repeat match goal with |- _ ∧ _ => split end;
    try apply Hafter;
    unfold after, Context.assign_state, PutValue; cbn;
    repeat case_bool_decide; done.
Qed.

(** C9: a value that is not a string, [null] or [undefined], assigned to
    [ctx.state] from strict or non-strict code, completes normally and leaves
    the session (so the state) and the world (so no callback has run) as they
    were; this with or without a callback configured. *)
Theorem state_assignment_ignored (onStateChange : option (callback W))
    (strict : bool) (v : value) sd w :
  match v with Str _ | Null | Undefined => False | _ => True end →
  Context.assign_state onStateChange strict v (sd, w) = (Normal tt, (sd, w)).
Proof. by destruct v. Qed.

End FacadeFacts.

(** C2, as the code has it: for each method name of the data surface the
    [set] trap refuses the write, leaving the session as it was, and a read of
    the name still yields the method.  The assignment [ctx.data.name = v]
    therefore completes normally, ignored, in non-strict code, and throws a
    [TypeError] in strict mode code.  [set(name, v)] stores the field under
    that name all the same; the proxy goes on answering the name with the
    method. *)
Theorem data_reserved_name (name : string) (v : value)
    (sd : FSMSessionData RecordAny) :
  name ∈ DataNamespace.method_names →
  DataNamespace.Proxy.set name v sd = (false, sd)
  ∧ DataNamespace.Proxy.get name sd = Method name
  ∧ DataNamespace.assign false name v sd = (Normal tt, sd)
  ∧ (∃ message, DataNamespace.assign true name v sd
                = (Throw (TypeError message), sd))
  ∧ data (DataNamespace.set name v sd) !! name = Some v
  ∧ DataNamespace.get name (DataNamespace.set name v sd) = Field v
  ∧ DataNamespace.Proxy.get name (DataNamespace.set name v sd) = Method name.
Proof.
  intros Hname. unfold DataNamespace.method_names in Hname.
  repeat (apply elem_of_cons in Hname as [-> | Hname]);
    [.. | by apply elem_of_nil in Hname];
    (repeat split; [by eexists | | ]);
    unfold DataNamespace.set, DataNamespace.get, read, put; cbn;
    by rewrite lookup_insert_eq.
Qed.

(** From state [a], [state.set("b")] runs the recording callback once, on
    [(a, b)]; setting [b] again does not run it. *)
Lemma state_change_callback_witness :
  StateNamespace.set (Some recorder) "b" Sample.in_a
    = (mkSession (Some "b") ∅, [(Some "a", Some "b")])
  ∧ StateNamespace.set (Some recorder) "b"
      (StateNamespace.set (Some recorder) "b" Sample.in_a)
    = (mkSession (Some "b") ∅, [(Some "a", Some "b")]).
Proof.
  destruct (state_change_callback recorder (mkSession (Some "a") ∅) [] "b"
              None false) as [(w1 & Hfirst & Hchanged & _) _].
  assert (Hw1 : w1 = [(Some "a", Some "b")]) by (by apply Hchanged).
  subst w1. cbn [data] in Hfirst.
  unfold Sample.in_a. rewrite Hfirst. split; [reflexivity|].
  destruct (state_change_callback recorder (mkSession (Some "b") ∅)
              [(Some "a", Some "b")] "b" None false)
    as [(w2 & Hsecond & _ & Hsame) _].
  cbn [data] in Hsecond. rewrite Hsecond. f_equal. by apply Hsame.
Defined.

(** [ctx.state = 5] in strict mode code: nothing happens. *)
Lemma state_assignment_ignored_witness :
  Context.assign_state (Some recorder) true (Num (int 5)) Sample.in_a
  = (Normal tt, Sample.in_a).
Proof.
  exact (state_assignment_ignored (Some recorder) true (Num (int 5)) _ _ I).
Defined.

(** C2 as stated fails: [ctx.data.set = 1] in strict mode code throws. *)
Lemma data_reserved_name_assignment_throws :
  "set" ∈ DataNamespace.method_names
  ∧ fst (DataNamespace.assign true "set" (Num (int 1)) (mkSession None ∅))
    = Throw (TypeError "trap returned falsish for property")
  ∧ throws (fst (DataNamespace.assign true "set" (Num (int 1))
                   (mkSession None ∅))) = true.
Proof.
  split; [|split; reflexivity].
  apply elem_of_cons. by left.
Qed.

(** The name [get]: the trap refuses the write, non-strict code does not
    notice, and [set("get", "x")] stores the field. *)
Lemma data_reserved_name_witness :
  DataNamespace.Proxy.set "get" (Str "x") (mkSession None ∅)
    = (false, mkSession None ∅)
  ∧ DataNamespace.assign false "get" (Str "x") (mkSession None ∅)
    = (Normal tt, mkSession None ∅)
  ∧ data (DataNamespace.set "get" (Str "x") (mkSession None ∅)) !! "get"
    = Some (Str "x").
Proof.
  assert (Hget : "get" ∈ DataNamespace.method_names).
  { apply elem_of_cons. right. apply elem_of_cons. by left. }
  destruct (data_reserved_name "get" (Str "x") (mkSession None ∅) Hget)
    as (Htrap & _ & Hsloppy & _ & Hstored & _).
  split; [exact Htrap | split; [exact Hsloppy | exact Hstored]].
Defined.

(** ** The lifecycle middleware *)

Section PluginFacts.

Context {S D W : Type} `{DataType D}.

Import Plugin.

(** C1: take an invocation for a resolved user key whose load read the state
    [loaded], whose handlers returned leaving [sessionData], and which
    completed normally.  After the two reads of the load, the backend has
    received exactly: [setState] then [setData] when the session has a state;
    one [clear] when it has none but one was loaded; nothing when it has none
    and none was loaded.  These calls are what takes the backend, as the
    handlers left it, to the backend at the end: it is the outcome of
    [storage.setState] followed by [storage.setData] on the state and the data
    of the session, the outcome of [storage.clear], or the backend as the
    handlers left it. *)
Theorem middleware_flush (storage : FSMStorage.t S D)
    (globalOnStateChange : option (number → callback W)) (userId : number)
    (next : NextFunction D W) (w w' : world S D W)
    (loaded : option string) (fetched : option D) (st1 st2 : S)
    (sessionData : ByReference.t D) (o : W) :
  number_truthy userId = true →
  FSMStorage.getState storage userId (backend w) = (Normal loaded, st1) →
  FSMStorage.getData storage userId st1 = (Normal fetched, st2) →
  with_fsm next ((fun g => g userId) <$> globalOnStateChange)
    (load loaded fetched, outside w) = (Normal tt, (sessionData, o)) →
  createFSM storage globalOnStateChange (Some userId) next w = (Normal tt, w') →
  let current := ByReference.view sessionData in
  let st3 :=
    in_place storage userId fetched (ByReference.loaded sessionData) st2 in
  ∃ flush : list (call D),
    calls w' = calls w ++ [GetState userId; GetData userId] ++ flush
    ∧ outside w' = o
    ∧ (∀ s, state current = Some s →
         flush = [SetState userId s; SetData userId (data current)]
         ∧ ∃ st4,
             FSMStorage.setState storage userId s st3 = (Normal tt, st4)
             ∧ FSMStorage.setData storage userId (data current) st4
               = (Normal tt, backend w'))
    ∧ (state current = None → loaded ≠ None →
         flush = [Clear userId]
         ∧ FSMStorage.clear storage userId st3 = (Normal tt, backend w'))
    ∧ (state current = None → loaded = None →
         flush = [] ∧ backend w' = st3).
Proof.
  intros Hresolved Hstate Hdata Hnext Hrun current st3.
  unfold createFSM, no_user in Hrun. rewrite Hresolved in Hrun.
  cbn [negb] in Hrun. unfold bind, await in Hrun.
  rewrite Hstate in Hrun. cbn [backend calls outside] in Hrun.
  rewrite Hdata in Hrun. cbn [backend calls outside] in Hrun.
  unfold next_with_fsm in Hrun. cbn [backend calls outside] in Hrun.
  rewrite Hnext in Hrun. fold current st3 in Hrun. unfold save in Hrun.
  destruct (state current) as [s|] eqn:Hs.
  - unfold bind, await in Hrun. cbn [backend calls outside] in Hrun.
    destruct (FSMStorage.setState storage userId s st3) as [[[]|e] st4]
      eqn:Hset; [|discriminate Hrun].
    cbn [backend calls outside] in Hrun.
    destruct (FSMStorage.setData storage userId (data current) st4)
      as [[[]|e] st5] eqn:Hput; [|discriminate Hrun].
    injection Hrun as <-. cbn [calls backend outside].
    exists [SetState userId s; SetData userId (data current)].
    split; [by rewrite <- !app_assoc|]. split; [done|].
    split; [|done].
    intros s' [= <-]. split; [done|]. by exists st4.
  - destruct loaded as [s0|].
    + unfold await in Hrun. cbn [backend calls outside] in Hrun.
      destruct (FSMStorage.clear storage userId st3) as [[[]|e] st4]
        eqn:Hclear; [|discriminate Hrun].
      injection Hrun as <-. cbn [calls backend outside].
      exists [Clear userId]. split; [by rewrite <- !app_assoc|]. done.
    + unfold ret in Hrun. injection Hrun as <-. cbn [calls backend outside].
      exists []. split; [by rewrite <- !app_assoc|]. done.
Qed.

(** Without a resolvable user the handlers run and the backend is not
    called. *)
Lemma middleware_no_user (storage : FSMStorage.t S D)
    (globalOnStateChange : option (number → callback W))
    (from_id : option number) (next : NextFunction D W) (w : world S D W) :
  no_user from_id = true →
  createFSM storage globalOnStateChange from_id next w = next_plain next w
  ∧ calls (snd (next_plain next w)) = calls w
  ∧ backend (snd (next_plain next w)) = backend w.
Proof.
  intros Hnone. split.
  - unfold createFSM. destruct from_id; [by rewrite Hnone | done].
  - unfold next_plain. by destruct (plain next (outside w)).
Qed.

End PluginFacts.

(** Over the in-memory backend an invocation completes normally as soon as
    its handlers do. *)
Lemma middleware_memory_completes {W : Type}
    (globalOnStateChange : option (number → callback W)) (userId : number)
    (next : Plugin.NextFunction RecordAny W)
    (w : Plugin.world MemoryStorage.t RecordAny W) :
  number_truthy userId = true →
  fst (Plugin.with_fsm next ((fun g => g userId) <$> globalOnStateChange)
         (Plugin.load (MemoryStorage.getState userId (Plugin.backend w))
            (MemoryStorage.getData userId (Plugin.backend w)),
          Plugin.outside w)) = Normal tt →
  fst (Plugin.createFSM FSMStorage.memory globalOnStateChange (Some userId)
         next w) = Normal tt.
Proof.
  intros Hresolved Hnext.
  unfold Plugin.createFSM, Plugin.no_user. rewrite Hresolved.
  cbn [negb]. unfold bind, Plugin.await.
  cbn [FSMStorage.memory FSMStorage.getState FSMStorage.getData
       Plugin.backend Plugin.calls Plugin.outside].
  unfold Plugin.next_with_fsm.
  cbn [Plugin.backend Plugin.calls Plugin.outside].
  destruct (Plugin.with_fsm next _ _) as [r [sessionData o]].
  cbn [fst] in Hnext. subst r. unfold Plugin.save.
  destruct (state (ByReference.view sessionData)); [done|].
  by destruct (MemoryStorage.getState userId (Plugin.backend w)).
Qed.

(** Three invocations for user 7 over the in-memory backend: registering
    from nothing persists state then data, and the store holds the record;
    [fsm.clear()] on the registered user clears the backend, and the store is
    empty; touching nothing, with nothing loaded, sends the backend nothing
    after the load, and the store is as it was. *)
Lemma middleware_flush_witness :
  (Plugin.calls (snd (Plugin.createFSM FSMStorage.memory
      (Some Sample.global_recorder) (Some (int 7)) Sample.registration
      Sample.boot))
     = [Plugin.GetState (int 7); Plugin.GetData (int 7);
        Plugin.SetState (int 7) "awaiting_name";
        Plugin.SetData (int 7) Sample.ann]
   ∧ Plugin.backend (snd (Plugin.createFSM FSMStorage.memory
      (Some Sample.global_recorder) (Some (int 7)) Sample.registration
      Sample.boot))
     = {[ int 7 := MemoryStorage.mkStorageData (Some "awaiting_name")
                     Sample.ann ]})
  ∧ (Plugin.calls (snd (Plugin.createFSM FSMStorage.memory
      (Some Sample.global_recorder) (Some (int 7)) Sample.finish
      Sample.registered))
     = [Plugin.GetState (int 7); Plugin.GetData (int 7); Plugin.Clear (int 7)]
   ∧ Plugin.backend (snd (Plugin.createFSM FSMStorage.memory
      (Some Sample.global_recorder) (Some (int 7)) Sample.finish
      Sample.registered))
     = ∅)
  ∧ (Plugin.calls (snd (Plugin.createFSM FSMStorage.memory
      (Some Sample.global_recorder) (Some (int 7)) Sample.idle Sample.boot))
     = [Plugin.GetState (int 7); Plugin.GetData (int 7)]
   ∧ Plugin.backend (snd (Plugin.createFSM FSMStorage.memory
      (Some Sample.global_recorder) (Some (int 7)) Sample.idle Sample.boot))
     = ∅).
Proof.
  split; [|split].
  - destruct (middleware_flush FSMStorage.memory (Some Sample.global_recorder)
      (int 7) Sample.registration Sample.boot _ None None _ _ _ _
      eq_refl eq_refl eq_refl eq_refl eq_refl) as (flush & Hcalls & _ & Hset & _).
    destruct (Hset "awaiting_name" eq_refl) as (-> & st4 & Hstate & Hdata).
    split; [exact Hcalls|].
    injection Hstate as <-.
    exact (eq_trans (eq_sym (f_equal snd Hdata)) eq_refl).
  - destruct (middleware_flush FSMStorage.memory (Some Sample.global_recorder)
      (int 7) Sample.finish Sample.registered _ (Some "awaiting_name")
      (Some Sample.ann) _ _ _ _
      eq_refl eq_refl eq_refl eq_refl eq_refl)
      as (flush & Hcalls & _ & _ & Hclear & _).
    destruct (Hclear eq_refl ltac:(discriminate)) as (-> & Hcleared).
    split; [exact Hcalls|].
    exact (eq_trans (eq_sym (f_equal snd Hcleared)) eq_refl).
  - destruct (middleware_flush FSMStorage.memory (Some Sample.global_recorder)
      (int 7) Sample.idle Sample.boot _ None None _ _ _ _
      eq_refl eq_refl eq_refl eq_refl eq_refl)
      as (flush & Hcalls & _ & _ & _ & Hidle).
    destruct (Hidle eq_refl eq_refl) as (-> & Hsame).
    split; [exact Hcalls|]. exact Hsame.
Defined.

(** * Further properties of the code *)

(** ** The in-memory backend: round trips, other users, removal *)

Section MemoryStorageMore.

Import MemoryStorage.

Implicit Types (userId other : number) (storage : MemoryStorage.t).

Lemma memory_getState_insert userId (r : StorageData) storage :
  getState userId (<[userId := r]> storage) = state r.
Proof. unfold getState. by rewrite lookup_insert_eq. Qed.

Lemma memory_getData_insert userId (r : StorageData) storage :
  MemoryStorage.getData userId (<[userId := r]> storage)
  = if bool_decide (data r = ∅) then None else Some (data r).
Proof.
  rewrite memory_getData_stored. unfold stored. by rewrite lookup_insert_eq.
Qed.

(** What was written for a user is what is read back: the state as it is,
    the mapping unless it is empty ([getData] then reads nothing), and after
    [updateData] the merge, the state staying what it was. *)
Theorem memory_round_trip userId (s : string) (d p : RecordAny) storage :
  getState userId (setState userId s storage) = Some s
  ∧ MemoryStorage.getData userId (setData userId d storage)
    = (if bool_decide (d = ∅) then None else Some d)
  ∧ MemoryStorage.getData userId (updateData userId p storage)
    = (let merged := p ∪ default ∅ (stored userId storage) in
       if bool_decide (merged = ∅) then None else Some merged)
  ∧ getState userId (updateData userId p storage) = getState userId storage.
Proof.
  split; [|split; [|split]].
  - apply memory_getState_insert.
  - apply memory_getData_insert.
  - rewrite memory_getData_stored. unfold stored at 1.
    by rewrite memory_updateData_lookup.
  - unfold getState at 1. by rewrite memory_updateData_lookup.
Qed.

(** No operation for one user touches the record of another. *)
Theorem memory_other_users_untouched userId other (s : string)
    (d : RecordAny) storage :
  other ≠ userId →
  setState userId s storage !! other = storage !! other
  ∧ setData userId d storage !! other = storage !! other
  ∧ updateData userId d storage !! other = storage !! other
  ∧ clear userId storage !! other = storage !! other
  ∧ getState other (setState userId s storage) = getState other storage
  ∧ MemoryStorage.getData other (setData userId d storage)
    = MemoryStorage.getData other storage
  ∧ MemoryStorage.getData other (updateData userId d storage)
    = MemoryStorage.getData other storage
  ∧ getState other (clear userId storage) = getState other storage
  ∧ MemoryStorage.getData other (clear userId storage)
    = MemoryStorage.getData other storage.
Proof.
  intros Hne.
  assert (Hs : setState userId s storage !! other = storage !! other).
  { unfold setState. by rewrite lookup_insert_ne. }
  assert (Hd : setData userId d storage !! other = storage !! other).
  { unfold setData. by rewrite lookup_insert_ne. }
  assert (Hu : updateData userId d storage !! other = storage !! other).
  { unfold updateData. by rewrite lookup_insert_ne. }
  assert (Hc : clear userId storage !! other = storage !! other).
  { unfold clear. by rewrite lookup_delete_ne. }
  unfold MemoryStorage.getData, getState.
  by rewrite Hs, Hd, Hu, Hc.
Qed.

(** [clear] removes the record: both getters read nothing, the user is no
    longer listed, clearing again (or clearing a user that has no record)
    changes nothing. *)
Theorem memory_clear_removes userId storage :
  getState userId (clear userId storage) = None
  ∧ MemoryStorage.getData userId (clear userId storage) = None
  ∧ (userId ∉ getUserIds (clear userId storage))
  ∧ clear userId (clear userId storage) = clear userId storage
  ∧ (storage !! userId = None → clear userId storage = storage).
Proof.
  unfold getState, MemoryStorage.getData, getUserIds, clear.
  rewrite lookup_delete_eq. split; [done|]. split; [done|].
  split; [|split].
  - intros [[k r] [Hk Hin]]%list_elem_of_fmap. simpl in Hk. subst k.
    apply elem_of_map_to_list in Hin. by rewrite lookup_delete_eq in Hin.
  - apply delete_delete_eq.
  - apply delete_id.
Qed.

(** [getUserIds] lists each user with a record once.  A record need not be
    visible through the getters: storing an empty mapping for a user without
    state lists the user while [getState] and [getData] read nothing. *)
Theorem memory_getUserIds userId storage :
  NoDup (getUserIds storage)
  ∧ (userId ∈ getUserIds storage ↔ is_Some (storage !! userId))
  ∧ (∀ (s : string) (d : RecordAny),
       userId ∈ getUserIds (setState userId s storage)
       ∧ userId ∈ getUserIds (setData userId d storage)
       ∧ userId ∈ getUserIds (updateData userId d storage))
  ∧ (getState userId storage = None →
     userId ∈ getUserIds (setData userId ∅ storage)
     ∧ getState userId (setData userId ∅ storage) = None
     ∧ MemoryStorage.getData userId (setData userId ∅ storage) = None)
  ∧ getUserIds (clearAll storage) = [].
Proof.
  assert (Hin : ∀ k (st : MemoryStorage.t),
    k ∈ getUserIds st ↔ is_Some (st !! k)).
  { intros k st. unfold getUserIds. rewrite list_elem_of_fmap. split.
    - intros [[k' r] [-> Hr]]. apply elem_of_map_to_list in Hr. by eexists.
    - intros [r Hr]. exists (k, r). split; [done|].
      by apply elem_of_map_to_list. }
  split; [apply NoDup_fst_map_to_list|]. split; [apply Hin|].
  split; [|split].
  - intros s d. rewrite !Hin. unfold setState, setData, updateData.
    rewrite !lookup_insert_eq. by repeat split.
  - intros Hnone. split; [|split].
    + rewrite Hin, memory_setData_lookup. by eexists.
    + unfold getState at 1. by rewrite memory_setData_lookup.
    + rewrite memory_getData_stored. unfold stored.
      rewrite memory_setData_lookup. simpl. by rewrite bool_decide_eq_true_2.
  - unfold getUserIds, clearAll. by rewrite map_to_list_empty.
Qed.

(** Two updates in a row are one update with the later partial laid over
    the earlier; an empty partial changes nothing of an existing record. *)
Theorem memory_updateData_twice userId (p1 p2 : RecordAny) storage :
  updateData userId p2 (updateData userId p1 storage)
  = updateData userId (p2 ∪ p1) storage
  ∧ (is_Some (storage !! userId) → updateData userId ∅ storage = storage).
Proof.
  split.
  - apply map_eq. intros k. destruct (decide (k = userId)) as [->|Hne].
    + rewrite !memory_updateData_lookup.
      unfold getState at 1, stored at 1.
      rewrite memory_updateData_lookup. simpl.
      by rewrite (assoc_L (∪)).
    + unfold updateData. by rewrite !lookup_insert_ne.
  - intros [r Hr]. unfold updateData, current. rewrite Hr. simpl.
    rewrite spread2_Obj, map_empty_union. apply insert_id.
    rewrite Hr. by destruct r.
Qed.

End MemoryStorageMore.

(** ** Strings: what tells two derived keys apart *)

Lemma list_ascii_of_string_app (a b : string) :
  list_ascii_of_string (a +:+ b)
  = list_ascii_of_string a ++ list_ascii_of_string b.
Proof. induction a as [|x a IH]; simpl; [done | by rewrite IH]. Qed.

Lemma list_ascii_of_string_inj (a b : string) :
  list_ascii_of_string a = list_ascii_of_string b → a = b.
Proof.
  intros Heq. rewrite <- (string_of_list_ascii_of_string a),
    <- (string_of_list_ascii_of_string b). by rewrite Heq.
Qed.

Lemma string_app_inj_suffix (a b suffix : string) :
  a +:+ suffix = b +:+ suffix → a = b.
Proof.
  intros Heq. apply list_ascii_of_string_inj.
  apply (f_equal list_ascii_of_string) in Heq.
  rewrite !list_ascii_of_string_app in Heq.
  by apply app_inj_2 in Heq as [? _].
Qed.

Lemma state_suffix_not_data_suffix (a b : string) :
  a +:+ ":state" ≠ b +:+ ":data".
Proof.
  intros Heq. apply (f_equal list_ascii_of_string) in Heq.
  rewrite !list_ascii_of_string_app in Heq.
  change (list_ascii_of_string ":state")
    with (list_ascii_of_string ":" ++ list_ascii_of_string "state") in Heq.
  rewrite (assoc_L (++)) in Heq.
  apply app_inj_2 in Heq as [_ Heq]; [discriminate Heq | done].
Qed.

(** ** The external backend: round trips, other users, removal *)

Section RedisStorageMore.

Context `{Runtime}.

Import RedisStorage RedisKeys.

Implicit Types (this : RedisStorage.t) (userId other : number)
  (c : Redis.client).

Lemma stateKey_not_dataKey this userId other :
  stateKey this userId ≠ dataKey this other.
Proof.
  unfold stateKey, dataKey. intros Heq.
  apply (inj (String.append _)) in Heq.
  by apply state_suffix_not_data_suffix in Heq.
Qed.

Lemma stateKey_inj this userId other :
  stateKey this userId = stateKey this other →
  Number_toString userId = Number_toString other.
Proof.
  unfold stateKey. intros Heq. apply (inj (String.append _)) in Heq.
  by apply string_app_inj_suffix in Heq.
Qed.

Lemma dataKey_inj this userId other :
  dataKey this userId = dataKey this other →
  Number_toString userId = Number_toString other.
Proof.
  unfold dataKey. intros Heq. apply (inj (String.append _)) in Heq.
  by apply string_app_inj_suffix in Heq.
Qed.

(** The state of a user as the client holds it. *)
Lemma getState_valid this userId c :
  positive_integer userId = true →
  getState this userId c
  = (Normal (Redis.payload <$> Redis.entries c !! stateKey this userId),
     Redis.mkClient (Redis.entries c)
       (Redis.issued c ++ [Redis.GET (stateKey this userId)])).
Proof.
  intros Hv. unfold getState, bind, lift, Redis.get.
  by rewrite getStateKey_valid.
Qed.

Lemma text_dataKey this userId c :
  positive_integer userId = true →
  text this userId c = Redis.payload <$> Redis.entries c !! dataKey this userId.
Proof. intros Hv. unfold text. by rewrite getDataKey_valid. Qed.

(** [write] changes the entry of its key and no other. *)
Lemma write_other this (key v other_key : string) c :
  other_key ≠ key →
  Redis.entries (snd (write this key v c)) !! other_key
  = Redis.entries c !! other_key.
Proof.
  intros Hne. unfold write.
  destruct (ttl this) as [seconds|]; [destruct (number_truthy seconds)|];
    simpl; by rewrite lookup_insert_ne.
Qed.

Lemma write_issued this (key v : string) c :
  Redis.issued (snd (write this key v c))
  = Redis.issued c ++ [written this key v].
Proof.
  unfold write, written.
  by destruct (ttl this) as [seconds|]; [destruct (number_truthy seconds)|].
Qed.

(** The state written for a user is the state read back, whatever the
    time-to-live; writing or updating the data of the user leaves the state
    as it is. *)
Theorem redis_state_round_trip this userId (s : string) (d : value) c :
  positive_integer userId = true →
  fst (getState this userId (snd (setState this userId s c))) = Normal (Some s)
  ∧ fst (getState this userId (snd (setData this userId d c)))
    = fst (getState this userId c)
  ∧ fst (getState this userId (snd (updateData this userId d c)))
    = fst (getState this userId c).
Proof.
  intros Hv. rewrite !getState_valid by done. cbn [fst].
  split; [|split].
  - rewrite setState_valid by done. f_equal. apply write_payload.
  - rewrite setData_valid by done. f_equal. f_equal.
    apply write_other, stateKey_not_dataKey.
  - unfold updateData, bind. rewrite getData_valid by done.
    rewrite setData_valid by done. f_equal. f_equal.
    rewrite write_other by apply stateKey_not_dataKey. done.
Qed.

(** A mapping whose text parses back to it is read back as written, unless
    it is empty: then [getData] reads nothing.  Writing the state of the user
    leaves the data as they are. *)
Theorem redis_data_round_trip this userId (m : RecordAny) (s : string) c :
  positive_integer userId = true →
  JSON_parse (JSON_stringify (Obj m)) = Normal (Obj m) →
  fst (RedisStorage.getData this userId (snd (setData this userId (Obj m) c)))
    = Normal (if bool_decide (m = ∅) then None else Some (Obj m))
  ∧ fst (RedisStorage.getData this userId (snd (setState this userId s c)))
    = fst (RedisStorage.getData this userId c).
Proof.
  intros Hv Hround. rewrite !getData_valid by done. cbn [fst].
  split.
  - rewrite text_dataKey, setData_valid by done.
    rewrite (proj2 (write_payload _ _ _ _)).
    f_equal. by apply reading_mapping.
  - rewrite !text_dataKey, setState_valid by done. do 3 f_equal.
    apply write_other. intros Heq. symmetry in Heq.
    by apply stateKey_not_dataKey in Heq.
Qed.

(** [clear] sends the one command [DEL] with both sub-keys of the user;
    afterwards the state and the data of the user read as nothing, every
    other entry is as it was, and clearing again removes nothing more. *)
Theorem redis_clear_removes this userId c :
  positive_integer userId = true →
  fst (clear this userId c) = Normal tt
  ∧ Redis.issued (snd (clear this userId c))
    = Redis.issued c ++ [Redis.DEL [stateKey this userId; dataKey this userId]]
  ∧ fst (getState this userId (snd (clear this userId c))) = Normal None
  ∧ fst (RedisStorage.getData this userId (snd (clear this userId c)))
    = Normal None
  ∧ (∀ key, key ≠ stateKey this userId → key ≠ dataKey this userId →
       Redis.entries (snd (clear this userId c)) !! key
       = Redis.entries c !! key)
  ∧ Redis.entries (snd (clear this userId (snd (clear this userId c))))
    = Redis.entries (snd (clear this userId c)).
Proof.
  intros Hv.
  assert (Hclear : ∀ c', clear this userId c'
    = (Normal tt,
       Redis.mkClient
         (delete (stateKey this userId)
            (delete (dataKey this userId) (Redis.entries c')))
         (Redis.issued c'
          ++ [Redis.DEL [stateKey this userId; dataKey this userId]]))).
  { intros c'. unfold clear, bind, lift.
    by rewrite getStateKey_valid, getDataKey_valid. }
  rewrite !Hclear. cbn [fst snd Redis.issued Redis.entries].
  split; [done|]. split; [done|]. split; [|split; [|split]].
  - rewrite getState_valid by done. cbn [fst Redis.entries].
    by rewrite lookup_delete_eq.
  - rewrite getData_valid, text_dataKey by done. cbn [fst Redis.entries].
    rewrite lookup_delete_ne by apply stateKey_not_dataKey.
    by rewrite lookup_delete_eq.
  - intros key Hs Hd. by rewrite !lookup_delete_ne.
  - apply map_eq. intros key.
    destruct (decide (key = stateKey this userId)) as [->|Hs];
      [by rewrite !lookup_delete_eq|].
    rewrite !(lookup_delete_ne _ (stateKey this userId)) by done.
    destruct (decide (key = dataKey this userId)) as [->|Hd];
      [by rewrite !lookup_delete_eq|].
    by rewrite !lookup_delete_ne.
Qed.

Lemma redis_entries_elsewhere this userId (s : string) (d : value) c
    (key : string) :
  positive_integer userId = true →
  key ≠ stateKey this userId → key ≠ dataKey this userId →
  Redis.entries (snd (setState this userId s c)) !! key = Redis.entries c !! key
  ∧ Redis.entries (snd (setData this userId d c)) !! key
    = Redis.entries c !! key
  ∧ Redis.entries (snd (updateData this userId d c)) !! key
    = Redis.entries c !! key
  ∧ Redis.entries (snd (clear this userId c)) !! key = Redis.entries c !! key.
Proof.
  intros Hv Hs Hd. split; [|split; [|split]].
  - rewrite setState_valid by done. by apply write_other.
  - rewrite setData_valid by done. by apply write_other.
  - unfold updateData, bind. rewrite getData_valid, setData_valid by done.
    by rewrite write_other.
  - unfold clear, bind, lift.
    rewrite getStateKey_valid, getDataKey_valid by done.
    cbn [snd Redis.del Redis.entries foldr].
    by rewrite !lookup_delete_ne.
Qed.

(** Two users whose ids print differently do not share an entry: whatever
    is written, updated or cleared for one, the state and the data of the
    other read as before. *)
Theorem redis_other_users_untouched this userId other (s : string)
    (d : value) c :
  positive_integer userId = true →
  positive_integer other = true →
  Number_toString other ≠ Number_toString userId →
  (fst (getState this other (snd (setState this userId s c)))
     = fst (getState this other c)
   ∧ fst (RedisStorage.getData this other (snd (setState this userId s c)))
     = fst (RedisStorage.getData this other c))
  ∧ (fst (getState this other (snd (setData this userId d c)))
     = fst (getState this other c)
   ∧ fst (RedisStorage.getData this other (snd (setData this userId d c)))
     = fst (RedisStorage.getData this other c))
  ∧ (fst (getState this other (snd (updateData this userId d c)))
     = fst (getState this other c)
   ∧ fst (RedisStorage.getData this other (snd (updateData this userId d c)))
     = fst (RedisStorage.getData this other c))
  ∧ (fst (getState this other (snd (clear this userId c)))
     = fst (getState this other c)
   ∧ fst (RedisStorage.getData this other (snd (clear this userId c)))
     = fst (RedisStorage.getData this other c)).
Proof.
  intros Hv Ho Hne.
  assert (Hss : stateKey this other ≠ stateKey this userId)
    by (intros Heq; by apply stateKey_inj in Heq).
  assert (Hdd : dataKey this other ≠ dataKey this userId)
    by (intros Heq; by apply dataKey_inj in Heq).
  pose proof (stateKey_not_dataKey this other userId) as Hsd.
  assert (Hds : dataKey this other ≠ stateKey this userId)
    by (intros Heq; symmetry in Heq; by apply stateKey_not_dataKey in Heq).
  destruct (redis_entries_elsewhere this userId s d c (stateKey this other)
              Hv Hss Hsd) as (Hs1 & Hs2 & Hs3 & Hs4).
  destruct (redis_entries_elsewhere this userId s d c (dataKey this other)
              Hv Hds Hdd) as (Hd1 & Hd2 & Hd3 & Hd4).
  rewrite !getState_valid, !getData_valid, !text_dataKey by done.
  cbn [fst].
  by rewrite Hs1, Hs2, Hs3, Hs4, Hd1, Hd2, Hd3, Hd4.
Qed.

(** The commands each operation sends for a valid user: the two reads send
    one [GET] and change no entry; [updateData] sends a [GET] and then one
    write, both on the data sub-key, and leaves the entry of the state (so
    also its expiry) as it was. *)
Theorem redis_commands_sent this userId (p : value) c :
  positive_integer userId = true →
  getState this userId c
    = (Normal (Redis.payload <$> Redis.entries c !! stateKey this userId),
       Redis.mkClient (Redis.entries c)
         (Redis.issued c ++ [Redis.GET (stateKey this userId)]))
  ∧ snd (RedisStorage.getData this userId c)
    = Redis.mkClient (Redis.entries c)
        (Redis.issued c ++ [Redis.GET (dataKey this userId)])
  ∧ (∃ merged : string,
       Redis.issued (snd (updateData this userId p c))
       = Redis.issued c
         ++ [Redis.GET (dataKey this userId);
             written this (dataKey this userId) merged]
       ∧ text this userId (snd (updateData this userId p c)) = Some merged)
  ∧ Redis.entries (snd (updateData this userId p c)) !! stateKey this userId
    = Redis.entries c !! stateKey this userId.
Proof.
  intros Hv. split; [by apply getState_valid|].
  split; [by rewrite getData_valid|]. split.
  - destruct (updateData_valid this userId p c Hv) as [_ Htext].
    eexists. split; [|exact Htext].
    unfold updateData, bind. rewrite getData_valid, setData_valid by done.
    rewrite write_issued. cbn [Redis.issued]. by rewrite <- (assoc_L (++)).
  - unfold updateData, bind. rewrite getData_valid, setData_valid by done.
    by rewrite write_other by apply stateKey_not_dataKey.
Qed.

End RedisStorageMore.

(** ** The facade: round trips, enumeration, composition *)

Section FacadeMore.

Context {W : Type}.

Implicit Types (onStateChange : option (callback W)) (so : session W)
  (sd : FSMSessionData RecordAny).

(** The state surface reads back what was set: after [set(s)], [get] is [s],
    [has] holds and the conversion to a string gives [s]; after [clear], [get]
    is absent, [has] fails and the conversion gives the empty string.  [has]
    says whether [get] returns a state.  Neither touches the data, and
    without a callback configured the world is left alone. *)
Theorem state_surface_round_trip onStateChange (s : string) so :
  StateNamespace.get (StateNamespace.set onStateChange s so) = Some s
  ∧ StateNamespace.has (StateNamespace.set onStateChange s so) = true
  ∧ StateNamespace.toString (StateNamespace.set onStateChange s so) = s
  ∧ StateNamespace.get (StateNamespace.clear onStateChange so) = None
  ∧ StateNamespace.has (StateNamespace.clear onStateChange so) = false
  ∧ StateNamespace.toString (StateNamespace.clear onStateChange so)
    = EmptyString
  ∧ (StateNamespace.has so = true ↔ ∃ s', StateNamespace.get so = Some s')
  ∧ data (fst (StateNamespace.set onStateChange s so)) = data (fst so)
  ∧ data (fst (StateNamespace.clear onStateChange so)) = data (fst so)
  ∧ snd (StateNamespace.set None s so) = snd so
  ∧ snd (StateNamespace.clear None so) = snd so.
Proof.
  destruct so as [sd w].
  assert (Hset : fst (StateNamespace.set onStateChange s (sd, w))
                 = mkSession (Some s) (data sd)).
  { unfold StateNamespace.set. destruct onStateChange; [|done].
    by destruct (bool_decide _). }
  assert (Hclear : fst (StateNamespace.clear onStateChange (sd, w))
                   = mkSession None (data sd)).
  { unfold StateNamespace.clear. destruct onStateChange; [|done].
    by destruct (bool_decide _). }
  assert (Hget : ∀ x : session W, StateNamespace.get x = state (fst x))
    by (by intros []).
  assert (Hhas : ∀ x : session W,
    StateNamespace.has x = bool_decide (state (fst x) ≠ None))
    by (by intros []).
  assert (Hstr : ∀ x : session W,
    StateNamespace.toString x = default EmptyString (state (fst x)))
    by (by intros []).
  rewrite !Hget, !Hhas, !Hstr, !Hset, !Hclear. cbn [state data fst].
  repeat match goal with |- _ ∧ _ => split end; try done.
  split.
  - intros Hs. apply bool_decide_eq_true in Hs.
    destruct (state sd) as [s'|]; [by exists s' | done].
  - intros [s' Hs]. apply bool_decide_eq_true. by rewrite Hs.
Qed.

(** A field stored under a name other than [__proto__] is read back, by
    [get] and, for a name the namespace object does not answer itself, by
    direct access; direct assignment of such a name is [set]; other fields and
    the state stay as they were. *)
Theorem data_field_round_trip (key : string) (v : value) sd :
  key ≠ "__proto__" →
  DataNamespace.get key (DataNamespace.set key v sd) = Field v
  ∧ (∀ k, k ≠ key →
       DataNamespace.get k (DataNamespace.set key v sd) = DataNamespace.get k sd)
  ∧ state (DataNamespace.set key v sd) = state sd
  ∧ (DataNamespace.in_target key = false →
     DataNamespace.Proxy.set key v sd = (true, DataNamespace.set key v sd)
     ∧ DataNamespace.Proxy.get key (DataNamespace.set key v sd) = Field v
     ∧ ∀ strict, DataNamespace.assign strict key v sd
                 = (Normal tt, DataNamespace.set key v sd)).
Proof.
  intros Hproto.
  assert (Hput : ∀ d : RecordAny, put key v d = <[key := v]> d).
  { intros d. unfold put.
    destruct (String.eqb_spec key "__proto__") as [Heq|]; [by destruct Hproto|done]. }
  unfold DataNamespace.get, DataNamespace.set, read. cbn [data state].
  rewrite Hput. split; [by rewrite lookup_insert_eq|].
  split; [intros k Hk; by rewrite lookup_insert_ne|]. split; [done|].
  intros Htarget.
  unfold DataNamespace.assign, DataNamespace.Proxy.set, DataNamespace.Proxy.get,
    read.
  rewrite Htarget, Hput. cbn [data]. rewrite lookup_insert_eq.
  by repeat split.
Qed.

(** Direct access keeps the fields clear of the names the namespace object
    answers itself: if no field carries such a name, none does after a direct
    assignment or a direct [delete], whatever the name, nor after [clear].
    Then every field reads back through direct access, and the enumeration
    lists no method name. *)
Theorem data_direct_access_keeps_unshadowed (prop : string) (v : value) sd :
  unshadowed sd →
  unshadowed (snd (DataNamespace.Proxy.set prop v sd))
  ∧ unshadowed (snd (DataNamespace.Proxy.deleteProperty prop sd))
  ∧ unshadowed (DataNamespace.clear sd)
  ∧ (∀ k x, data sd !! k = Some x → DataNamespace.Proxy.get k sd = Field x)
  ∧ (∀ k, k ∈ DataNamespace.Proxy.ownKeys sd → k ∉ DataNamespace.method_names).
Proof.
  intros Hun. split; [|split; [|split; [|split]]].
  - unfold DataNamespace.Proxy.set.
    destruct (DataNamespace.in_target prop) eqn:Ht; [done|].
    intros k. cbn [snd data]. unfold put.
    destruct (String.eqb prop "__proto__"); [apply Hun|].
    destruct (decide (k = prop)) as [->|Hne]; [done|].
    rewrite lookup_insert_ne by done. apply Hun.
  - unfold DataNamespace.Proxy.deleteProperty.
    destruct (DataNamespace.in_target prop) eqn:Ht; [done|].
    intros k. cbn [snd data].
    destruct (decide (k = prop)) as [->|Hne]; [by rewrite lookup_delete_eq; intros []|].
    rewrite lookup_delete_ne by done. apply Hun.
  - intros k. cbn [DataNamespace.clear data]. rewrite lookup_empty. by intros [].
  - intros k x Hk. unfold DataNamespace.Proxy.get, read.
    rewrite (Hun k) by (by rewrite Hk). by rewrite Hk.
  - intros k Hk Hm. unfold DataNamespace.Proxy.ownKeys, keys in Hk.
    apply list_elem_of_fmap in Hk as [[k' x] [-> Hx]].
    apply elem_of_map_to_list in Hx. cbn [fst] in Hm.
    assert (Ht : DataNamespace.in_target k' = false)
      by (apply Hun; by rewrite Hx).
    unfold DataNamespace.in_target in Ht.
    apply orb_false_iff in Ht as [Ht _].
    by apply bool_decide_eq_false in Ht.
Qed.

(** The enumeration of the data surface lists each field once and nothing
    else; membership also answers for what the namespace object has itself;
    after [clear] nothing is listed. *)
Theorem data_enumeration (prop : string) sd :
  NoDup (DataNamespace.Proxy.ownKeys sd)
  ∧ (prop ∈ DataNamespace.Proxy.ownKeys sd ↔ is_Some (data sd !! prop))
  ∧ DataNamespace.Proxy.has prop sd
    = DataNamespace.in_target prop
      || bool_decide (prop ∈ DataNamespace.Proxy.ownKeys sd)
  ∧ DataNamespace.Proxy.ownKeys (DataNamespace.clear sd) = [].
Proof.
  assert (Hin : prop ∈ DataNamespace.Proxy.ownKeys sd
                ↔ is_Some (data sd !! prop)).
  { unfold DataNamespace.Proxy.ownKeys, keys. rewrite list_elem_of_fmap. split.
    - intros [[k x] [-> Hx]]. apply elem_of_map_to_list in Hx. by eexists.
    - intros [x Hx]. exists (prop, x). split; [done|].
      by apply elem_of_map_to_list. }
  split; [apply NoDup_fst_map_to_list|]. split; [exact Hin|]. split.
  - unfold DataNamespace.Proxy.has. f_equal. apply bool_decide_ext.
    by rewrite Hin.
  - unfold DataNamespace.Proxy.ownKeys, keys. cbn [DataNamespace.clear data].
    by rewrite map_to_list_empty.
Qed.

(** [delete(key)] removes that field and no other, and changes nothing when
    there is no such field.  A direct [delete] does the same for a name the
    namespace object does not answer itself, and is refused, leaving the
    session as it was, for one it does. *)
Theorem data_delete (key : string) sd :
  data (DataNamespace.delete key sd) !! key = None
  ∧ (∀ k, k ≠ key → data (DataNamespace.delete key sd) !! k = data sd !! k)
  ∧ state (DataNamespace.delete key sd) = state sd
  ∧ (data sd !! key = None → DataNamespace.delete key sd = sd)
  ∧ (DataNamespace.in_target key = true →
     DataNamespace.Proxy.deleteProperty key sd = (false, sd))
  ∧ (DataNamespace.in_target key = false →
     DataNamespace.Proxy.deleteProperty key sd
     = (true, DataNamespace.delete key sd)).
Proof.
  unfold DataNamespace.delete, DataNamespace.Proxy.deleteProperty.
  cbn [data state]. split; [apply lookup_delete_eq|].
  split; [intros k Hk; by apply lookup_delete_ne|]. split; [done|].
  split; [|split].
  - intros Hnone. rewrite delete_id by done. by destruct sd.
  - by intros ->.
  - by intros ->.
Qed.

(** [update] lays the partial over the fields, the partial winning; two
    updates are one update with the later partial over the earlier; an empty
    partial changes nothing; [setAll] replaces and [clear] empties the fields,
    so that an update after [clear] is a [setAll]. *)
Theorem data_update_algebra (p1 p2 d : RecordAny) sd :
  DataNamespace.getAll (DataNamespace.update p1 sd)
    = p1 ∪ DataNamespace.getAll sd
  ∧ (∀ k x, p1 !! k = Some x →
       DataNamespace.getAll (DataNamespace.update p1 sd) !! k = Some x)
  ∧ (∀ k, p1 !! k = None →
       DataNamespace.getAll (DataNamespace.update p1 sd) !! k
       = DataNamespace.getAll sd !! k)
  ∧ DataNamespace.update p2 (DataNamespace.update p1 sd)
    = DataNamespace.update (p2 ∪ p1) sd
  ∧ DataNamespace.update ∅ sd = sd
  ∧ DataNamespace.getAll (DataNamespace.setAll d sd) = d
  ∧ DataNamespace.getAll (DataNamespace.clear sd) = ∅
  ∧ DataNamespace.update p1 (DataNamespace.clear sd)
    = DataNamespace.setAll p1 sd.
Proof.
  unfold DataNamespace.getAll, DataNamespace.update, DataNamespace.setAll,
    DataNamespace.clear.
  cbn [data state]. rewrite !spread2_Obj.
  split; [done|]. split; [|split; [|split; [|split; [|split; [|split]]]]].
  - intros k x Hk. by apply lookup_union_Some_l.
  - intros k Hk. by apply lookup_union_r.
  - by rewrite (assoc_L (∪)).
  - rewrite map_empty_union. by destruct sd.
  - done.
  - done.
  - by rewrite map_union_empty.
Qed.


(** The flat facade and the namespaced one are the same operations: on the
    state ([setState] and the [state] setter against [set] and [clear]), and
    on the data. *)
Theorem flat_facade_agrees onStateChange (s key : string) (v : value)
    (d : RecordAny) so :
  FlatContext.setState onStateChange s so = StateNamespace.set onStateChange s so
  ∧ FlatContext.set_state onStateChange (Some s) so
    = StateNamespace.set onStateChange s so
  ∧ FlatContext.set_state onStateChange None so
    = StateNamespace.clear onStateChange so
  ∧ FlatContext.getState so = StateNamespace.get so
  ∧ FlatContext.hasState so = StateNamespace.has so
  ∧ FlatContext.setData d so = (DataNamespace.setAll d (fst so), snd so)
  ∧ FlatContext.getData so = DataNamespace.getAll (fst so)
  ∧ FlatContext.updateData d so = (DataNamespace.update d (fst so), snd so)
  ∧ FlatContext.get key so = DataNamespace.get key (fst so)
  ∧ FlatContext.set key v so = (DataNamespace.set key v (fst so), snd so)
  ∧ FlatContext.delete key so = (DataNamespace.delete key (fst so), snd so).
Proof.
  destruct so as [sd w].
  unfold FlatContext.setState, FlatContext.set_state, StateNamespace.set,
    StateNamespace.clear.
  destruct onStateChange as [cb|];
    repeat match goal with |- _ ∧ _ => split end;
    try done; repeat case_bool_decide; done.
Qed.

(** [ctx.data = v] never throws; it empties the fields when [v] is [null]
    or [undefined] and does nothing for any other value, a mapping
    included. *)
Theorem data_assignment (strict : bool) (v : value) so :
  fst (Context.assign_data strict v so) = Normal tt
  ∧ (v = Null ∨ v = Undefined →
     snd (Context.assign_data strict v so)
     = (DataNamespace.clear (fst so), snd so))
  ∧ (v ≠ Null → v ≠ Undefined →
     snd (Context.assign_data strict v so) = so).
Proof.
  destruct so as [sd w]. split; [done|]. split.
  - by intros [-> | ->].
  - intros Hnull Hundef. by destruct v.
Qed.

End FacadeMore.

(** ** The state filters *)

Section FilterFacts.

Context {W : Type}.

Implicit Types (so : session W) (onStateChange : option (callback W)).

(** Without a facade on the context every filter throws the same error;
    with one, none throws. *)
Theorem filters_need_facade (n : string) (l : list string)
    (ctx : option (session W)) :
  (throws (Middleware.state n ctx) = true ↔ ctx = None)
  ∧ (throws (Middleware.states l ctx) = true ↔ ctx = None)
  ∧ (throws (Middleware.inAnyState ctx) = true ↔ ctx = None)
  ∧ (throws (Middleware.noState ctx) = true ↔ ctx = None)
  ∧ (ctx = None →
     Middleware.state n ctx = Throw Middleware.not_initialized
     ∧ Middleware.states l ctx = Throw Middleware.not_initialized
     ∧ Middleware.inAnyState ctx = Throw Middleware.not_initialized
     ∧ Middleware.noState ctx = Throw Middleware.not_initialized).
Proof.
  destruct ctx as [so|]; cbn; repeat split; try done.
Qed.

(** What the filters answer with a facade attached: [state(n)] whether the
    state is [n]; [states(l)] whether the state is one of [l], that is whether
    [state(m)] holds for some [m] of [l]; [inAnyState] whether there is a
    state; [noState] the opposite. *)
Theorem filters_semantics (n : string) (l : list string) so :
  (Middleware.state n (Some so) = Normal true ↔ StateNamespace.get so = Some n)
  ∧ (Middleware.states l (Some so) = Normal true
     ↔ ∃ m, m ∈ l ∧ StateNamespace.get so = Some m)
  ∧ (Middleware.states l (Some so) = Normal true
     ↔ ∃ m, m ∈ l ∧ Middleware.state m (Some so) = Normal true)
  ∧ (Middleware.inAnyState (Some so) = Normal true
     ↔ ∃ m, StateNamespace.get so = Some m)
  ∧ (Middleware.noState (Some so) = Normal true ↔ StateNamespace.get so = None)
  ∧ (Middleware.noState (Some so) = Normal true
     ↔ Middleware.inAnyState (Some so) = Normal false)
  ∧ Middleware.states [n] (Some so) = Middleware.state n (Some so)
  ∧ Middleware.states [] (Some so) = Normal false.
Proof.
  destruct so as [sd w]. unfold Middleware.state, Middleware.states,
    Middleware.inAnyState, Middleware.noState, StateNamespace.get,
    StateNamespace.has.
  assert (Hn : ∀ b c : bool, Normal b = Normal c ↔ b = c)
    by (intros b c; split; [by intros [= ->] | by intros ->]).
  rewrite !Hn. destruct (state sd) as [cur|].
  - split; [|split; [|split; [|split; [|split; [|split; [|split]]]]]].
    + rewrite bool_decide_eq_true. split; [by intros [= ->] | by intros ->].
    + rewrite bool_decide_eq_true. split.
      * intros Hin. by exists cur.
      * by intros (m & Hin & [= ->]).
    + rewrite bool_decide_eq_true. split.
      * intros Hin. exists cur. split; [done|]. apply Hn.
        by apply bool_decide_eq_true.
      * intros (m & Hin & Hm). apply Hn, bool_decide_eq_true in Hm.
        by injection Hm as ->.
    + rewrite bool_decide_eq_true_2 by done. split; [by exists cur | done].
    + rewrite bool_decide_eq_true_2 by done. done.
    + rewrite bool_decide_eq_true_2 by done. done.
    + f_equal. apply bool_decide_ext. rewrite list_elem_of_singleton.
      split; [by intros -> | by intros [= ->]].
    + done.
  - cbn. repeat split; try done;
      try (by intros (m & _ & ?)); try (by intros [m ?]);
      try (intros (m & _ & Hm); apply Hn in Hm;
           by apply bool_decide_eq_true in Hm);
      try (symmetry; by apply bool_decide_eq_false).
Qed.

(** The filters follow the facade: right after [state.set(s)], [state(n)]
    holds exactly for [n = s] and [states(l)] exactly when [s] is in [l];
    right after [state.clear()] or [fsm.clear()] only [noState] holds. *)
Theorem filters_after_mutation onStateChange (s n : string)
    (l : list string) so :
  Middleware.state n (Some (StateNamespace.set onStateChange s so))
    = Normal (bool_decide (s = n))
  ∧ Middleware.states l (Some (StateNamespace.set onStateChange s so))
    = Normal (bool_decide (s ∈ l))
  ∧ Middleware.inAnyState (Some (StateNamespace.set onStateChange s so))
    = Normal true
  ∧ Middleware.noState (Some (StateNamespace.set onStateChange s so))
    = Normal false
  ∧ (∀ after, after = StateNamespace.clear onStateChange so
              ∨ after = Context.fsm_clear onStateChange so →
       Middleware.state n (Some after) = Normal false
       ∧ Middleware.states l (Some after) = Normal false
       ∧ Middleware.inAnyState (Some after) = Normal false
       ∧ Middleware.noState (Some after) = Normal true).
Proof.
  destruct so as [sd w].
  assert (Hset : ∃ w', StateNamespace.set onStateChange s (sd, w)
                       = (mkSession (Some s) (data sd), w')).
  { unfold StateNamespace.set. destruct onStateChange; [|by eexists].
    destruct (bool_decide _); by eexists. }
  destruct Hset as [w' ->].
  split; [|split; [|split; [|split]]].
  - cbn. f_equal. apply bool_decide_ext.
    split; [by intros [= ->] | by intros ->].
  - done.
  - done.
  - done.
  - intros after Hafter.
    assert (Hstate : ∃ d w'', after = (mkSession None d, w'')).
    { destruct Hafter as [-> | ->];
        unfold StateNamespace.clear, Context.fsm_clear;
        (destruct onStateChange; [destruct (bool_decide _)|]); by do 2 eexists. }
    destruct Hstate as (d & w'' & ->). done.
Qed.

End FilterFacts.

(** ** The facade, with [sessionData.data] as a reference *)

Section ByReferenceFacts.

(** Read through the reference, every operation of the data namespace is the
    operation of the previous sections. *)
Lemma by_reference_view (key : string) (v : value)
    (r : ByReference.reference RecordAny) (d : RecordAny)
    (b : ByReference.t RecordAny) :
  ByReference.view (ByReference.DataNamespace.set key v b)
    = DataNamespace.set key v (ByReference.view b)
  ∧ ByReference.DataNamespace.get key b
    = DataNamespace.get key (ByReference.view b)
  ∧ ByReference.view (ByReference.DataNamespace.setAll r b)
    = DataNamespace.setAll (ByReference.deref r b) (ByReference.view b)
  ∧ ByReference.deref (ByReference.DataNamespace.getAll b) b
    = DataNamespace.getAll (ByReference.view b)
  ∧ ByReference.view (ByReference.DataNamespace.update d b)
    = DataNamespace.update d (ByReference.view b)
  ∧ ByReference.view (ByReference.DataNamespace.delete key b)
    = DataNamespace.delete key (ByReference.view b)
  ∧ ByReference.view (ByReference.DataNamespace.clear b)
    = DataNamespace.clear (ByReference.view b)
  ∧ (let '(done, b') := ByReference.DataNamespace.Proxy.set key v b in
     (done, ByReference.view b'))
    = DataNamespace.Proxy.set key v (ByReference.view b)
  ∧ (let '(done, b') :=
       ByReference.DataNamespace.Proxy.deleteProperty key b in
     (done, ByReference.view b'))
    = DataNamespace.Proxy.deleteProperty key (ByReference.view b).
Proof.
  destruct b as [[s [|contents]] l];
    unfold ByReference.DataNamespace.Proxy.set,
      ByReference.DataNamespace.Proxy.deleteProperty,
      DataNamespace.Proxy.set, DataNamespace.Proxy.deleteProperty;
    destruct (DataNamespace.in_target key); destruct r; done.
Qed.

(** So is every operation on the state, and [fsm.clear()]. *)
Lemma by_reference_state_view {W} (onStateChange : option (callback W))
    (s : string) (b : ByReference.t RecordAny) (w : W) :
  (let '(b', w') :=
     ByReference.on_session (StateNamespace.set onStateChange s) (b, w) in
   (ByReference.view b', w'))
  = StateNamespace.set onStateChange s (ByReference.view b, w)
  ∧ (let '(b', w') :=
       ByReference.on_session (StateNamespace.clear onStateChange) (b, w) in
     (ByReference.view b', w'))
    = StateNamespace.clear onStateChange (ByReference.view b, w)
  ∧ (let '(b', w') := ByReference.fsm_clear onStateChange (b, w) in
     (ByReference.view b', w'))
    = Context.fsm_clear onStateChange (ByReference.view b, w).
Proof.
  destruct b as [[s0 [|contents]] l];
    unfold ByReference.on_session, ByReference.fsm_clear, StateNamespace.set,
      StateNamespace.clear, Context.fsm_clear;
    cbn [ByReference.sessionData state data ByReference.loaded ByReference.view
         ByReference.contents ByReference.deref];
    destruct onStateChange as [cb|]; repeat case_bool_decide; done.
Qed.

(** The object the LOAD step produced is written by [set], [delete] and the
    direct accesses, while [sessionData.data] designates it, and by nothing
    else: not once [sessionData.data] designates another object, and not by
    the operations that make it designate one. *)
Lemma by_reference_loaded {W} (onStateChange : option (callback W))
    (key : string) (v : value) (r : ByReference.reference RecordAny)
    (d : RecordAny) (s : string) (b : ByReference.t RecordAny) (w : W) :
  (data (ByReference.sessionData b) = ByReference.Loaded →
     ByReference.loaded (ByReference.DataNamespace.set key v b)
       = put key v (ByReference.loaded b)
     ∧ ByReference.loaded (ByReference.DataNamespace.delete key b)
       = base.delete key (ByReference.loaded b)
     ∧ (DataNamespace.in_target key = false →
        ByReference.loaded
          (snd (ByReference.DataNamespace.Proxy.set key v b))
          = put key v (ByReference.loaded b)
        ∧ ByReference.loaded
            (snd (ByReference.DataNamespace.Proxy.deleteProperty key b))
          = base.delete key (ByReference.loaded b)))
  ∧ (data (ByReference.sessionData b) ≠ ByReference.Loaded →
     ByReference.loaded (ByReference.DataNamespace.set key v b)
       = ByReference.loaded b
     ∧ ByReference.loaded (ByReference.DataNamespace.delete key b)
       = ByReference.loaded b
     ∧ ByReference.loaded
         (snd (ByReference.DataNamespace.Proxy.set key v b))
       = ByReference.loaded b
     ∧ ByReference.loaded
         (snd (ByReference.DataNamespace.Proxy.deleteProperty key b))
       = ByReference.loaded b)
  ∧ ByReference.loaded (ByReference.DataNamespace.setAll r b)
    = ByReference.loaded b
  ∧ ByReference.loaded (ByReference.DataNamespace.update d b)
    = ByReference.loaded b
  ∧ ByReference.loaded (ByReference.DataNamespace.clear b)
    = ByReference.loaded b
  ∧ ByReference.loaded (fst (ByReference.fsm_clear onStateChange (b, w)))
    = ByReference.loaded b
  ∧ ByReference.loaded
      (fst (ByReference.on_session (StateNamespace.set onStateChange s)
              (b, w)))
    = ByReference.loaded b
  ∧ ByReference.loaded
      (fst (ByReference.on_session (StateNamespace.clear onStateChange)
              (b, w)))
    = ByReference.loaded b
  ∧ data (ByReference.sessionData (ByReference.DataNamespace.update d b))
    ≠ ByReference.Loaded
  ∧ data (ByReference.sessionData (ByReference.DataNamespace.clear b))
    ≠ ByReference.Loaded
  ∧ data (ByReference.sessionData
            (fst (ByReference.fsm_clear onStateChange (b, w))))
    ≠ ByReference.Loaded.
Proof.
  destruct b as [[s0 [|contents]] l];
    unfold ByReference.DataNamespace.Proxy.set,
      ByReference.DataNamespace.Proxy.deleteProperty,
      ByReference.on_session, ByReference.fsm_clear, StateNamespace.set,
      StateNamespace.clear;
    cbn [ByReference.sessionData state data ByReference.loaded];
    (split; [intros Href|split; [intros Href|]]);
    try done;
    try (destruct (DataNamespace.in_target key); done);
    try (split; [done|split; [done|intros ->; done]]);
    destruct onStateChange as [cb|]; repeat case_bool_decide; done.
Qed.

End ByReferenceFacts.

(** ** The lifecycle middleware: failure paths and persistence *)

Section PluginMore.

Context {S D W : Type} `{DataType D}.

Import Plugin.

(** An invocation whose load succeeds is the SAVE step run after the
    handlers, or the handlers' exception; either way the backend has what the
    handlers wrote in place into an object it handed out. *)
Lemma createFSM_loaded (storage : FSMStorage.t S D)
    (globalOnStateChange : option (number → callback W)) (userId : number)
    (next : NextFunction D W) (w : world S D W)
    (loaded : option string) (fetched : option D) (st1 st2 : S)
    (r : completion unit) (sessionData : ByReference.t D) (o : W) :
  number_truthy userId = true →
  FSMStorage.getState storage userId (backend w) = (Normal loaded, st1) →
  FSMStorage.getData storage userId st1 = (Normal fetched, st2) →
  with_fsm next ((fun g => g userId) <$> globalOnStateChange)
    (load loaded fetched, outside w) = (r, (sessionData, o)) →
  let st3 :=
    in_place storage userId fetched (ByReference.loaded sessionData) st2 in
  createFSM storage globalOnStateChange (Some userId) next w
  = match r with
    | Normal _ =>
        save storage userId loaded (ByReference.view sessionData)
          (mkWorld st3 (calls w ++ [GetState userId; GetData userId]) o)
    | Throw e =>
        (Throw e, mkWorld st3 (calls w ++ [GetState userId; GetData userId]) o)
    end.
Proof.
  intros Hresolved Hstate Hdata Hnext st3.
  unfold createFSM, no_user. rewrite Hresolved. cbn [negb].
  unfold bind, await. rewrite Hstate. cbn [backend calls outside].
  rewrite Hdata. cbn [backend calls outside].
  unfold next_with_fsm. cbn [backend calls outside]. rewrite Hnext.
  rewrite <- (assoc_L (++)). by destruct r.
Qed.

(** When a read of the load throws, that exception is the outcome of the
    invocation; the handlers have not run (the outside world is as it was)
    and the backend has received the failing read as its last call. *)
Theorem middleware_load_fails (storage : FSMStorage.t S D)
    (globalOnStateChange : option (number → callback W)) (userId : number)
    (next : NextFunction D W) (w : world S D W) (e : exn) (st1 : S) :
  number_truthy userId = true →
  (FSMStorage.getState storage userId (backend w) = (Throw e, st1) →
   createFSM storage globalOnStateChange (Some userId) next w
   = (Throw e, mkWorld st1 (calls w ++ [GetState userId]) (outside w)))
  ∧ (∀ loaded st0,
       FSMStorage.getState storage userId (backend w) = (Normal loaded, st0) →
       FSMStorage.getData storage userId st0 = (Throw e, st1) →
       createFSM storage globalOnStateChange (Some userId) next w
       = (Throw e,
          mkWorld st1 (calls w ++ [GetState userId; GetData userId])
                  (outside w))).
Proof.
  intros Hresolved. split.
  - intros Hstate. unfold createFSM, no_user. rewrite Hresolved. cbn [negb].
    unfold bind, await. by rewrite Hstate.
  - intros loaded st0 Hstate Hdata.
    unfold createFSM, no_user. rewrite Hresolved. cbn [negb].
    unfold bind, await. rewrite Hstate. cbn [backend calls outside].
    rewrite Hdata. cbn [backend calls outside].
    by rewrite <- (assoc_L (++)).
Qed.

End PluginMore.

(** A positive integer is truthy: a valid user key is a resolved one. *)
Lemma positive_integer_truthy (n : number) :
  positive_integer n = true → number_truthy n = true.
Proof.
  unfold positive_integer, number_truthy, isInteger, le0.
  destruct n as [q| | |]; try done.
  intros [_ Hpos]%andb_true_iff. apply negb_true_iff, Z.leb_gt in Hpos.
  apply negb_true_iff, Z.eqb_neq. lia.
Qed.

(** What the in-memory backend has of a write in place: the record of the
    user holds the written mapping, under the state it had; a user without a
    record gets none, and no other record changes. *)
Lemma memory_written_in_place_lookup (userId other : number) (d : RecordAny)
    (storage : MemoryStorage.t) :
  MemoryStorage.written_in_place userId d storage !! other
  = if bool_decide (other = userId)
    then (fun record =>
            MemoryStorage.mkStorageData (MemoryStorage.state record) d)
           <$> storage !! userId
    else storage !! other.
Proof.
  unfold MemoryStorage.written_in_place. case_bool_decide as Heq.
  - subst other. apply lookup_alter_eq.
  - by apply lookup_alter_ne.
Qed.

(** The object [getData] of the in-memory backend returns belongs to a
    record: written in place, it is the data of that record. *)
Lemma memory_in_place (userId : number) (d : RecordAny)
    (storage : MemoryStorage.t) :
  Plugin.in_place FSMStorage.memory userId
    (MemoryStorage.getData userId storage) d storage
  = match MemoryStorage.getData userId storage with
    | Some _ =>
        <[userId := MemoryStorage.mkStorageData
                      (MemoryStorage.getState userId storage) d]> storage
    | None => storage
    end.
Proof.
  unfold Plugin.in_place, Plugin.handed_out.
  destruct (MemoryStorage.getData userId storage) as [d0|] eqn:Hd; [|done].
  cbn [ToBoolean RecordAny_DataType FSMStorage.written_in_place
       FSMStorage.memory].
  apply map_eq. intros other. rewrite memory_written_in_place_lookup.
  unfold MemoryStorage.getData in Hd. unfold MemoryStorage.getState.
  destruct (storage !! userId) as [record|] eqn:Hrecord; [|done].
  case_bool_decide as Heq.
  - subst other. by rewrite lookup_insert_eq.
  - by rewrite lookup_insert_ne.
Qed.

Lemma memory_in_place_other (userId other : number) (fetched : option RecordAny)
    (d : RecordAny) (storage : MemoryStorage.t) :
  other ≠ userId →
  Plugin.in_place FSMStorage.memory userId fetched d storage !! other
  = storage !! other.
Proof.
  intros Hne. unfold Plugin.in_place.
  destruct (Plugin.handed_out fetched); [|done].
  cbn [FSMStorage.written_in_place FSMStorage.memory].
  rewrite memory_written_in_place_lookup. by rewrite bool_decide_eq_false_2.
Qed.

(** A write in place changes the data of a record, not its state. *)
Lemma memory_in_place_getState (userId other : number)
    (fetched : option RecordAny) (d : RecordAny) (storage : MemoryStorage.t) :
  MemoryStorage.getState other
    (Plugin.in_place FSMStorage.memory userId fetched d storage)
  = MemoryStorage.getState other storage.
Proof.
  unfold Plugin.in_place, MemoryStorage.getState.
  destruct (Plugin.handed_out fetched); [|done].
  cbn [FSMStorage.written_in_place FSMStorage.memory].
  rewrite memory_written_in_place_lookup. case_bool_decide as Heq; [|done].
  subst other. by destruct (storage !! userId).
Qed.

Section PluginBackends.

Context {W : Type}.


(** Over the external backend, a user id that is truthy but not a positive
    integer (a negative or fractional number) fails the invocation with the
    invalid-key error at the first read: the handlers do not run and the
    client is sent nothing. *)
Theorem middleware_redis_invalid_user `{Runtime} (this : RedisStorage.t)
    (globalOnStateChange : option (number → callback W)) (userId : number)
    (next : Plugin.NextFunction value W)
    (w : Plugin.world Redis.client value W) :
  number_truthy userId = true →
  positive_integer userId = false →
  Plugin.createFSM (FSMStorage.redis this) globalOnStateChange (Some userId)
    next w
  = (Throw (Error ("Invalid userId: " +:+ Number_toString userId)),
     Plugin.mkWorld (Plugin.backend w)
       (Plugin.calls w ++ [Plugin.GetState userId]) (Plugin.outside w)).
Proof.
  intros Hresolved Hinvalid.
  unfold Plugin.createFSM, Plugin.no_user. rewrite Hresolved. cbn [negb].
  unfold bind at 1, Plugin.await at 1.
  cbn [FSMStorage.redis FSMStorage.getState].
  unfold RedisStorage.getState, bind, lift, RedisStorage.getStateKey.
  by rewrite sanitizeUserId_invalid.
Qed.


(** Over the external backend, for a valid user: when the handlers leave a
    state [s] and a mapping whose text parses back to it, the invocation
    completes having sent the two reads, then the write of the state, then the
    write of the text, and the next load reads [s] and that mapping (the empty
    mapping included); when they leave no state after one was loaded, it sends
    the two reads and one [DEL], and the next load reads nothing. *)
Theorem middleware_redis_persists `{Runtime} (this : RedisStorage.t)
    (globalOnStateChange : option (number → callback W)) (userId : number)
    (next : Plugin.NextFunction value W)
    (w : Plugin.world Redis.client value W)
    (sessionData : ByReference.t value) (o : W) :
  positive_integer userId = true →
  let c := Plugin.backend w in
  let loaded := Redis.payload <$> Redis.entries c !! RedisKeys.stateKey this userId in
  let fetched := RedisStorage.reading (RedisStorage.text this userId c) in
  Plugin.with_fsm next ((fun g => g userId) <$> globalOnStateChange)
    (Plugin.load loaded fetched, Plugin.outside w)
    = (Normal tt, (sessionData, o)) →
  let current := ByReference.view sessionData in
  let run := Plugin.createFSM (FSMStorage.redis this) globalOnStateChange
               (Some userId) next w in
  let c' := Plugin.backend (snd run) in
  (∀ (s : string) (m : RecordAny),
     current = mkSession (Some s) (Obj m) →
     JSON_parse (JSON_stringify (Obj m)) = Normal (Obj m) →
     fst run = Normal tt
     ∧ Redis.issued c'
       = Redis.issued c
         ++ [Redis.GET (RedisKeys.stateKey this userId);
             Redis.GET (RedisKeys.dataKey this userId);
             RedisKeys.written this (RedisKeys.stateKey this userId) s;
             RedisKeys.written this (RedisKeys.dataKey this userId)
               (JSON_stringify (Obj m))]
     ∧ fst (RedisStorage.getState this userId c') = Normal (Some s)
     ∧ ∃ fetched', fst (RedisStorage.getData this userId c') = Normal fetched'
                   ∧ Plugin.or_empty fetched' = Obj m)
  ∧ (state current = None → loaded ≠ None →
     fst run = Normal tt
     ∧ Redis.issued c'
       = Redis.issued c
         ++ [Redis.GET (RedisKeys.stateKey this userId);
             Redis.GET (RedisKeys.dataKey this userId);
             Redis.DEL [RedisKeys.stateKey this userId;
                        RedisKeys.dataKey this userId]]
     ∧ fst (RedisStorage.getState this userId c') = Normal None
     ∧ fst (RedisStorage.getData this userId c') = Normal None).
Proof.
  intros Hv c loaded fetched Hnext current run c'.
  assert (Hrun : run = Plugin.save (FSMStorage.redis this) userId loaded
    current
    (Plugin.mkWorld
       (Redis.mkClient (Redis.entries c)
          ((Redis.issued c ++ [Redis.GET (RedisKeys.stateKey this userId)])
           ++ [Redis.GET (RedisKeys.dataKey this userId)]))
       (Plugin.calls w ++ [Plugin.GetState userId; Plugin.GetData userId]) o)).
  { subst run.
    rewrite (createFSM_loaded (FSMStorage.redis this) _ userId next w loaded
             fetched
             (Redis.mkClient (Redis.entries c)
                (Redis.issued c ++ [Redis.GET (RedisKeys.stateKey this userId)]))
             (Redis.mkClient (Redis.entries c)
                ((Redis.issued c ++ [Redis.GET (RedisKeys.stateKey this userId)])
                 ++ [Redis.GET (RedisKeys.dataKey this userId)]))
             (Normal tt) sessionData o
             (positive_integer_truthy _ Hv)).
    - unfold Plugin.in_place.
      cbn [FSMStorage.written_in_place FSMStorage.redis].
      by destruct (Plugin.handed_out fetched).
    - cbn [FSMStorage.redis FSMStorage.getState]. by apply getState_valid.
    - cbn [FSMStorage.redis FSMStorage.getData].
      rewrite getData_valid by done. done.
    - exact Hnext. }
  subst c'. rewrite Hrun. clear Hrun Hnext. generalize current. clear current.
  intros current. split.
  - intros s m -> Hround. unfold Plugin.save. cbn [state data].
    unfold bind, Plugin.await.
    cbn [FSMStorage.redis FSMStorage.setState FSMStorage.setData
         Plugin.backend Plugin.calls Plugin.outside].
    rewrite setState_valid by done.
    destruct (RedisStorage.write this _ s _) as [r1 c1] eqn:Hw1.
    pose proof (write_payload this
      (RedisStorage.keyPrefix this +:+ Number_toString userId +:+ ":state") s
      (Redis.mkClient (Redis.entries c)
         ((Redis.issued c ++ [Redis.GET (RedisKeys.stateKey this userId)])
          ++ [Redis.GET (RedisKeys.dataKey this userId)]))) as [Hr1 Hp1].
    pose proof (write_issued this (RedisKeys.stateKey this userId) s
      (Redis.mkClient (Redis.entries c)
         ((Redis.issued c ++ [Redis.GET (RedisKeys.stateKey this userId)])
          ++ [Redis.GET (RedisKeys.dataKey this userId)]))) as Hi1.
    unfold RedisKeys.stateKey in Hi1 at 1. rewrite Hw1 in Hr1, Hp1, Hi1.
    cbn [fst snd] in Hr1, Hp1, Hi1. subst r1.
    cbn [Plugin.backend Plugin.calls Plugin.outside].
    rewrite setData_valid by done.
    destruct (RedisStorage.write this _ (JSON_stringify (Obj m)) c1)
      as [r2 c2] eqn:Hw2.
    pose proof (write_payload this (RedisKeys.dataKey this userId)
                  (JSON_stringify (Obj m)) c1) as [Hr2 Hp2].
    pose proof (write_issued this (RedisKeys.dataKey this userId)
                  (JSON_stringify (Obj m)) c1) as Hi2.
    pose proof (write_other this (RedisKeys.dataKey this userId)
                  (JSON_stringify (Obj m)) (RedisKeys.stateKey this userId) c1
                  (stateKey_not_dataKey this userId userId)) as Ho2.
    unfold RedisKeys.dataKey in Hr2, Hp2, Hi2, Ho2 at 1.
    rewrite Hw2 in Hr2, Hp2, Hi2, Ho2. cbn [fst snd] in Hr2, Hp2, Hi2, Ho2.
    subst r2. cbn [fst snd Plugin.backend].
    split; [done|]. split; [|split].
    + rewrite Hi2, Hi1. cbn [Redis.issued].
      by rewrite <- !(assoc_L (++)).
    + rewrite getState_valid by done. cbn [fst]. rewrite Ho2.
      unfold RedisKeys.stateKey. by rewrite Hp1.
    + rewrite getData_valid, text_dataKey by done. cbn [fst].
      eexists. split; [done|].
      unfold RedisKeys.dataKey. rewrite Hp2.
      rewrite (reading_mapping _ _ Hround).
      case_bool_decide as Hm; [by subst m|done].
  - intros Hs Hloaded. unfold Plugin.save. rewrite Hs.
    destruct loaded as [s0|]; [|done].
    unfold Plugin.await.
    cbn [FSMStorage.redis FSMStorage.clear
         Plugin.backend Plugin.calls Plugin.outside].
    unfold RedisStorage.clear, bind, lift.
    rewrite getStateKey_valid, getDataKey_valid by done.
    cbn [fst snd Redis.del Redis.entries Redis.issued foldr Plugin.backend].
    split; [done|]. split; [|split].
    + by rewrite <- !(assoc_L (++)).
    + rewrite getState_valid by done. cbn [fst Redis.entries].
      unfold RedisKeys.stateKey. by rewrite lookup_delete_eq.
    + rewrite getData_valid, text_dataKey by done. cbn [fst Redis.entries].
      unfold RedisKeys.dataKey at 1.
      rewrite lookup_delete_ne by apply stateKey_not_dataKey.
      unfold RedisKeys.dataKey. by rewrite lookup_delete_eq.
Qed.

End PluginBackends.

(** ** The choice of the backend *)


(** ** The further properties on concrete inputs *)

Lemma int_8_not_7 : int 8 ≠ int 7.
Proof.
  intros Heq.
  apply (f_equal (fun n => match n with Finite q => Qnum q | _ => 0 end)) in Heq.
  vm_compute in Heq. discriminate Heq.
Qed.

(** Clearing user 7 leaves the record of user 8. *)
Lemma memory_other_users_untouched_witness :
  MemoryStorage.clear (int 7) MoreSamples.two_records !! int 8
    = MoreSamples.two_records !! int 8
  ∧ MemoryStorage.getState (int 8)
      (MemoryStorage.setState (int 7) "step3" MoreSamples.two_records)
    = MemoryStorage.getState (int 8) MoreSamples.two_records.
Proof.
  destruct (memory_other_users_untouched (int 7) (int 8) "step3" ∅
              MoreSamples.two_records int_8_not_7)
    as (_ & _ & _ & Hclear & Hstate & _).
  split; [exact Hclear | exact Hstate].
Defined.

(** Clearing a user of an empty store leaves it empty. *)
Lemma memory_clear_removes_witness :
  MemoryStorage.clear (int 7) MemoryStorage.new = MemoryStorage.new.
Proof.
  exact (proj2 (proj2 (proj2 (proj2
    (memory_clear_removes (int 7) MemoryStorage.new)))) eq_refl).
Defined.

(** User 8 has no state; an empty mapping stored for it lists it, and the
    getters still read nothing. *)
Lemma memory_getUserIds_witness :
  int 8 ∈ MemoryStorage.getUserIds
            (MemoryStorage.setData (int 8) ∅ Sample.one_record)
  ∧ MemoryStorage.getState (int 8)
      (MemoryStorage.setData (int 8) ∅ Sample.one_record) = None
  ∧ MemoryStorage.getData (int 8)
      (MemoryStorage.setData (int 8) ∅ Sample.one_record) = None.
Proof.
  exact (proj1 (proj2 (proj2 (proj2
    (memory_getUserIds (int 8) Sample.one_record)))) eq_refl).
Defined.

(** An empty partial leaves the record of user 7 as it is. *)
Lemma memory_updateData_twice_witness :
  MemoryStorage.updateData (int 7) ∅ Sample.one_record = Sample.one_record.
Proof.
  exact (proj2 (memory_updateData_twice (int 7) ∅ ∅ Sample.one_record)
           (ex_intro _ _ eq_refl)).
Defined.

Section MoreExamples.

#[local] Existing Instance ReferenceRuntime.runtime.

(** The state written for user 1 is read back. *)
Lemma redis_state_round_trip_witness :
  fst (RedisStorage.getState Sample.fsm (int 1)
         (snd (RedisStorage.setState Sample.fsm (int 1) "step1" Redis.connect)))
  = Normal (Some "step1").
Proof.
  exact (proj1 (redis_state_round_trip Sample.fsm (int 1) "step1" Null
                  Redis.connect eq_refl)).
Defined.

(** The mapping written for user 1 is read back. *)
Lemma redis_data_round_trip_witness :
  fst (RedisStorage.getData Sample.fsm (int 1)
         (snd (RedisStorage.setData Sample.fsm (int 1) (Obj Sample.ann)
                 Redis.connect)))
  = Normal (Some (Obj Sample.ann)).
Proof.
  exact (proj1 (redis_data_round_trip Sample.fsm (int 1) Sample.ann "step1"
                  Redis.connect eq_refl eq_refl)).
Defined.

(** Clearing user 1 sends one [DEL]; state and data then read as nothing. *)
Lemma redis_clear_removes_witness :
  Redis.issued (snd (RedisStorage.clear Sample.fsm (int 1)
                       MoreSamples.registered_client))
    = [Redis.DEL ["fsm:1:state"; "fsm:1:data"]]
  ∧ fst (RedisStorage.getState Sample.fsm (int 1)
           (snd (RedisStorage.clear Sample.fsm (int 1)
                   MoreSamples.registered_client))) = Normal None
  ∧ fst (RedisStorage.getData Sample.fsm (int 1)
           (snd (RedisStorage.clear Sample.fsm (int 1)
                   MoreSamples.registered_client))) = Normal None.
Proof.
  destruct (redis_clear_removes Sample.fsm (int 1)
              MoreSamples.registered_client eq_refl)
    as (_ & Hissued & Hstate & Hdata & _).
  split; [exact Hissued | split; [exact Hstate | exact Hdata]].
Defined.

(** Clearing user 2 leaves what user 1 has. *)
Lemma redis_other_users_untouched_witness :
  fst (RedisStorage.getState Sample.fsm (int 1)
         (snd (RedisStorage.clear Sample.fsm (int 2)
                 MoreSamples.registered_client)))
    = fst (RedisStorage.getState Sample.fsm (int 1)
             MoreSamples.registered_client)
  ∧ fst (RedisStorage.getData Sample.fsm (int 1)
           (snd (RedisStorage.clear Sample.fsm (int 2)
                   MoreSamples.registered_client)))
    = fst (RedisStorage.getData Sample.fsm (int 1)
             MoreSamples.registered_client).
Proof.
  assert (Hne : Number_toString (int 1) ≠ Number_toString (int 2))
    by discriminate.
  exact (proj2 (proj2 (proj2
    (redis_other_users_untouched Sample.fsm (int 2) (int 1) "step1" Null
       MoreSamples.registered_client eq_refl eq_refl Hne)))).
Defined.

(** Updating the data of user 1 leaves the entry of the state alone. *)
Lemma redis_commands_sent_witness :
  Redis.entries (snd (RedisStorage.updateData Sample.fsm (int 1)
                        (Obj Sample.a1) MoreSamples.registered_client))
    !! "fsm:1:state"
  = Some (Redis.mkEntry "step1" None).
Proof.
  exact (proj2 (proj2 (proj2
    (redis_commands_sent Sample.fsm (int 1) (Obj Sample.a1)
       MoreSamples.registered_client eq_refl)))).
Defined.

(** Over the external backend user -3 is refused before the handlers run. *)
Lemma middleware_load_fails_witness :
  Plugin.createFSM (FSMStorage.redis Sample.fsm) (Some Sample.global_recorder)
    (Some (int (-3))) MoreSamples.enrol MoreSamples.connected
  = (Throw (Error "Invalid userId: -3"),
     Plugin.mkWorld Redis.connect [Plugin.GetState (int (-3))] []).
Proof.
  exact (proj1 (middleware_load_fails (FSMStorage.redis Sample.fsm)
    (Some Sample.global_recorder) (int (-3)) MoreSamples.enrol
    MoreSamples.connected (Error "Invalid userId: -3") Redis.connect eq_refl)
    eq_refl).
Defined.

(** The same for the user id 1/2. *)
Lemma middleware_redis_invalid_user_witness :
  Plugin.createFSM (FSMStorage.redis Sample.fsm) (Some Sample.global_recorder)
    (Some Sample.half) MoreSamples.enrol MoreSamples.connected
  = (Throw (Error "Invalid userId: 0.5"),
     Plugin.mkWorld Redis.connect [Plugin.GetState Sample.half] []).
Proof.
  exact (middleware_redis_invalid_user Sample.fsm (Some Sample.global_recorder)
           Sample.half MoreSamples.enrol MoreSamples.connected eq_refl eq_refl).
Defined.

(** Enrolling user 7 over the external backend: the next load reads the
    state and the mapping. *)
Lemma middleware_redis_persists_witness :
  fst (RedisStorage.getState Sample.fsm (int 7)
         (Plugin.backend (snd (Plugin.createFSM (FSMStorage.redis Sample.fsm)
            (Some Sample.global_recorder) (Some (int 7)) MoreSamples.enrol
            MoreSamples.connected))))
    = Normal (Some "awaiting_name")
  ∧ Redis.issued
      (Plugin.backend (snd (Plugin.createFSM (FSMStorage.redis Sample.fsm)
         (Some Sample.global_recorder) (Some (int 7)) MoreSamples.enrol
         MoreSamples.connected)))
    = [Redis.GET "fsm:7:state"; Redis.GET "fsm:7:data";
       Redis.SET "fsm:7:state" "awaiting_name";
       Redis.SET "fsm:7:data" (ReferenceRuntime.stringify (Obj Sample.ann))].
Proof.
  destruct (proj1 (middleware_redis_persists (H := ReferenceRuntime.runtime)
    Sample.fsm (Some Sample.global_recorder) (int 7) MoreSamples.enrol
    MoreSamples.connected _ _ eq_refl eq_refl)
    "awaiting_name" Sample.ann eq_refl eq_refl)
    as (_ & Hissued & Hstate & _).
  split; [exact Hstate | exact Hissued].
Defined.

End MoreExamples.

(** The field [name], written directly, is the field [set] stores, and is
    read back directly. *)
Lemma data_field_round_trip_witness :
  DataNamespace.Proxy.set "name" (Str "Ann") (mkSession None ∅)
    = (true, DataNamespace.set "name" (Str "Ann") (mkSession None ∅))
  ∧ DataNamespace.Proxy.get "name"
      (DataNamespace.set "name" (Str "Ann") (mkSession None ∅))
    = Field (Str "Ann").
Proof.
  assert (Hname : "name" ≠ "__proto__") by discriminate.
  destruct (proj2 (proj2 (proj2
    (data_field_round_trip "name" (Str "Ann") (mkSession None ∅) Hname)))
    eq_refl) as (Hset & Hget & _).
  split; [exact Hset | exact Hget].
Defined.

(** A session with the one field [name]: its field reads back directly, and
    a direct assignment of [get] leaves it clear of method names. *)
Lemma data_direct_access_keeps_unshadowed_witness :
  unshadowed (snd (DataNamespace.Proxy.set "get" (Str "x") MoreSamples.named))
  ∧ DataNamespace.Proxy.get "name" MoreSamples.named = Field (Str "Ann").
Proof.
  assert (Hun : unshadowed MoreSamples.named).
  { intros k [x Hx]. unfold MoreSamples.named, Sample.ann in Hx. cbn [data] in Hx.
    apply lookup_singleton_Some in Hx as [<- _]. reflexivity. }
  destruct (data_direct_access_keeps_unshadowed "get" (Str "x")
              MoreSamples.named Hun) as (Hset & _ & _ & Hget & _).
  split; [exact Hset|]. apply Hget. reflexivity.
Defined.

(** A direct [delete] of [get] is refused. *)
Lemma data_delete_witness :
  DataNamespace.Proxy.deleteProperty "get" MoreSamples.named
  = (false, MoreSamples.named).
Proof.
  exact (proj1 (proj2 (proj2 (proj2 (proj2
    (data_delete "get" MoreSamples.named))))) eq_refl).
Defined.

(** Updating [{a:2,b:3}] with [{a:1}]: [a] is the partial's. *)
Lemma data_update_algebra_witness :
  DataNamespace.getAll
    (DataNamespace.update Sample.a1 (mkSession None Sample.a2b3)) !! "a"
  = Some (Num (int 1)).
Proof.
  exact (proj1 (proj2
    (data_update_algebra Sample.a1 ∅ ∅ (mkSession None Sample.a2b3)))
    "a" (Num (int 1)) eq_refl).
Defined.

(** [ctx.data = {name: "Ann"}] changes nothing. *)
Lemma data_assignment_witness :
  snd (Context.assign_data true (Obj Sample.ann) Sample.in_a) = Sample.in_a.
Proof.
  assert (Hnull : Obj Sample.ann ≠ Null) by discriminate.
  assert (Hundef : Obj Sample.ann ≠ Undefined) by discriminate.
  exact (proj2 (proj2 (data_assignment true (Obj Sample.ann) Sample.in_a))
           Hnull Hundef).
Defined.

(** Without a facade [state("a")] and [noState()] throw. *)
Lemma filters_need_facade_witness :
  Middleware.state (W := Sample.journal) "a" None
    = Throw Middleware.not_initialized
  ∧ Middleware.noState (W := Sample.journal) None
    = Throw Middleware.not_initialized.
Proof.
  destruct (proj2 (proj2 (proj2 (proj2
    (filters_need_facade (W := Sample.journal) "a" [] None)))) eq_refl)
    as (Hstate & _ & _ & Hno).
  split; [exact Hstate | exact Hno].
Defined.

(** After [fsm.clear()] in state [a], [noState] holds and [state("a")] does
    not. *)
Lemma filters_after_mutation_witness :
  Middleware.noState (Some (Context.fsm_clear (Some recorder) Sample.in_a))
    = Normal true
  ∧ Middleware.state "a" (Some (Context.fsm_clear (Some recorder) Sample.in_a))
    = Normal false.
Proof.
  destruct (proj2 (proj2 (proj2 (proj2
    (filters_after_mutation (Some recorder) "b" "a" [] Sample.in_a))))
    _ (or_intror eq_refl)) as (Hstate & _ & _ & Hno).
  split; [exact Hno | exact Hstate].
Defined.




(** An update from user id 0 counts as having no user: the handlers run
    without a facade and the backend is not called. *)
Lemma middleware_no_user_witness :
  Plugin.createFSM FSMStorage.memory (Some Sample.global_recorder)
    (Some (int 0)) Sample.registration Sample.registered
  = (Normal tt, Sample.registered).
Proof.
  exact (proj1 (middleware_no_user FSMStorage.memory
    (Some Sample.global_recorder) (Some (int 0)) Sample.registration
    Sample.registered eq_refl)).
Defined.
